(** * Lurklib: the receive / classify pipeline of [lurklib/__init__.py]

    A shallow embedding of class [IRC]: the raw sender [send], the line
    framer [mcon], the buffer reader [_recv] with [_resetbuffer] and
    [readable], the identity parser [_from_], the CTCP helpers, [recv] and
    the event classifier [stream].

    - Strings.  A Python string is a [string]: a sequence of characters
      with codes 0..255.  This is the Python 2 byte string, and the Python 3
      [str] restricted to code points up to U+00FF.  The string methods the
      code calls ([find], [replace], [split], [join]) are defined in module
      [Str]; the builtins that depend on the interpreter ([upper], the
      blanks of [split()], [int], the codecs) are fields of [Runtime].
    - The object.  The attributes the methods read or write are the
      fields of the record [IRC].  The socket is two lists: the chunks still
      to be received and the data sent so far.
    - Methods.  A method is a function [IRC -> IRC * outcome A]: it threads
      the object and returns, raises, or never comes back.  The two [while]
      loops take a bound on their passes; the one of [mcon] is computed from
      the socket and is never reached ([mcon_fuel]).
    - Other modules.  The methods that [stream] and [recv] call in the
      other modules of the package ([notice], [join], [parse_cmode_string],
      [quit], [_parse], [exception]) are modelled from the description of
      the system. *)

From Stdlib Require Import ZArith Ascii String.
From stdpp Require Import base option list gmap strings.

Local Open Scope Z_scope.

(** ** Characters and string literals with control codes *)

Definition CR : ascii := "013"%char.
Definition LF : ascii := "010"%char.
Definition SOH : ascii := "001"%char.

Definition chr (c : ascii) : string := String c "".

(** [self._clrf = '\r\n'] *)
Definition _clrf : string := String CR (String LF "").

(** ** Python's string methods *)

Module Str.

(** [s[n:]] *)
Fixpoint drop (n : nat) (s : string) : string :=
  match n, s with
  | O, _ => s
  | S _, "" => ""
  | S k, String _ s' => drop k s'
  end.

(** [s[-1]], when there is one *)
Fixpoint last (s : string) : option ascii :=
  match s with
  | "" => None
  | String c "" => Some c
  | String _ s' => last s'
  end.

(** [hay.find(needle)] counted from offset [i]: lowest index, or -1 *)
Fixpoint find_from (needle hay : string) (i : Z) : Z :=
  if String.prefix needle hay then i
  else match hay with
       | "" => -1
       | String _ hay' => find_from needle hay' (i + 1)
       end.

Definition find (hay needle : string) : Z := find_from needle hay 0.

(** [new.join(s)] over the characters of [s], with one more [new] at the
    end: what [s.replace('', new)] gives *)
Fixpoint sprinkle (new s : string) : string :=
  match s with
  | "" => new
  | String c s' => new +:+ String c (sprinkle new s')
  end.

(** Left-to-right scan of [s.replace(old, new)] for a non-empty [old];
    [skip] counts the characters of a match still to be dropped. *)
Fixpoint replace_go (old new : string) (skip : nat) (s : string) : string :=
  match s with
  | "" => ""
  | String c s' =>
      match skip with
      | S k => replace_go old new k s'
      | O =>
          if String.prefix old s
          then new +:+ replace_go old new (String.length old - 1) s'
          else String c (replace_go old new 0 s')
      end
  end.

(** [s.replace(old, new)] *)
Definition replace (old new s : string) : string :=
  match old with
  | "" => sprinkle new s
  | _ => replace_go old new 0 s
  end.

(** [s.replace(old, new, 1)] *)
Fixpoint replace1 (old new s : string) : string :=
  if String.prefix old s then new +:+ drop (String.length old) s
  else match s with
       | "" => ""
       | String c s' => String c (replace1 old new s')
       end.

(** Put [c] in front of the first piece of a split. *)
Definition cons_head (c : ascii) (pieces : list string) : list string :=
  match pieces with
  | h :: t => String c h :: t
  | [] => [chr c]
  end.

Fixpoint split_go (sep : string) (skip : nat) (s : string) : list string :=
  match s with
  | "" => [""]
  | String c s' =>
      match skip with
      | S k => split_go sep k s'
      | O =>
          if String.prefix sep s
          then "" :: split_go sep (String.length sep - 1) s'
          else cons_head c (split_go sep 0 s')
      end
  end.

(** [s.split(sep)] for a non-empty separator (the only use in the source
    is a literal) *)
Definition split (sep s : string) : list string := split_go sep 0 s.

(** [s.split(sep, 1)] *)
Fixpoint split1 (sep s : string) : list string :=
  if String.prefix sep s then [""; drop (String.length sep) s]
  else match s with
       | "" => [""]
       | String c s' => cons_head c (split1 sep s')
       end.

(** [s.split()]: the maximal runs of non-blank characters *)
Fixpoint words (sp : ascii -> bool) (s : string) : list string :=
  match s with
  | "" => []
  | String c s' =>
      if sp c then words sp s'
      else match s' with
           | "" => [chr c]
           | String d _ =>
               if sp d then chr c :: words sp s'
               else cons_head c (words sp s')
           end
  end.

Fixpoint lstrip (sp : ascii -> bool) (s : string) : string :=
  match s with
  | "" => ""
  | String c s' => if sp c then lstrip sp s' else s
  end.

(** The first word of a string that starts with a non-blank, and what
    follows it. *)
Fixpoint span_word (sp : ascii -> bool) (s : string) : string * string :=
  match s with
  | "" => ("", "")
  | String c s' =>
      if sp c then ("", s)
      else let '(w, r) := span_word sp s' in (String c w, r)
  end.

(** [s.split(None, n)]: at most [n] splits, the remainder kept whole
    (without its leading blanks) *)
Fixpoint words_max (sp : ascii -> bool) (n : nat) (s : string) : list string :=
  let s1 := lstrip sp s in
  if decide (s1 = "") then []
  else match n with
       | O => [s1]
       | S k => let '(w, r) := span_word sp s1 in w :: words_max sp k r
       end.

(** [sep.join(pieces)] *)
Definition join (sep : string) (pieces : list string) : string :=
  String.concat sep pieces.

(** Does character [c] occur in [s]? *)
Fixpoint has_char (c : ascii) (s : string) : bool :=
  match s with
  | "" => false
  | String d s' => if decide (c = d) then true else has_char c s'
  end.

(** Is [needle] a substring of [hay]? *)
Definition contains (hay needle : string) : bool :=
  negb (find hay needle =? -1).

End Str.

(** [l[i]] for a Python integer index: negative indices count from the
    end; [None] stands for IndexError. *)
Definition py_index {A} (l : list A) (i : Z) : option A :=
  let n := Z.of_nat (length l) in
  if 0 <=? i then l !! Z.to_nat i
  else if 0 <=? n + i then l !! Z.to_nat (n + i)
  else None.

(** ** The Python runtime

    The builtins whose behaviour depends on the interpreter version, the
    locale or the codec registry are gathered in one record, so that the
    theorems hold for every interpreter.  [cpython2] and [cpython3] below
    are the instances used to run the model. *)

Inductive codec_error :=
  | UnknownEncoding      (* LookupError: unknown encoding *)
  | Undecodable          (* UnicodeDecodeError *)
  | Unencodable.         (* UnicodeEncodeError *)

Inductive codec_result :=
  | CodecOK (s : string)
  | CodecErr (e : codec_error).

Record Runtime := {
  (** [sys.version_info[0]] *)
  version_major : Z;
  (** the characters [str.split()] treats as blanks *)
  isspace : ascii -> bool;
  (** [str.upper()] *)
  upper : string -> string;
  (** [int(s)] for a string; [None] is ValueError *)
  int_of_str : string -> option Z;
  (** [data.decode(encoding)] *)
  decode : string -> string -> codec_result;
  (** [bytes(msg, encoding)] and [msg.encode(encoding)] *)
  encode : string -> string -> codec_result;
}.

(** ** Exceptions and outcomes *)

Inductive exn :=
  | IndexError
  | KeyError
  | TypeError
  | UnboundLocalError (var : string)
  | LookupError
  | UnicodeDecodeError
  | UnicodeEncodeError
  | ProtocolError (code : string).   (* what [exception(code)] raises *)

Definition exn_of_codec (e : codec_error) : exn :=
  match e with
  | UnknownEncoding => LookupError
  | Undecodable => UnicodeDecodeError
  | Unencodable => UnicodeEncodeError
  end.

(** What a call comes to: a value, an exception, a call that never comes
    back ([Hang]: the socket is closed in the middle of a line and the read
    loop spins), or a bounded run of the model that stopped early. *)
Inductive outcome (A : Type) :=
  | Return (a : A)
  | Raise (e : exn)
  | Hang
  | OutOfFuel.
Arguments Return {A} a.
Arguments Raise {A} e.
Arguments Hang {A}.
Arguments OutOfFuel {A}.

(** ** The data model *)

(** A value of the CTCP reply table [self.ctcps]. *)
Inductive ctcp_value :=
  | CtcpNone                      (* None *)
  | CtcpCall (result : string)    (* a callable; [result] is [str(f())] *)
  | CtcpInt (n : Z)               (* an int *)
  | CtcpStr (s : string).         (* a str *)

(** A value stored in a channel's entry, itself a dict keyed by strings:
    ['USERS'] maps a nick to its attribute list, ['TOPIC'] is a string. *)
Inductive chan_value :=
  | VUsers (users : gmap string (list string))
  | VStr (s : string).

(** [v == None] *)
Definition is_none (v : ctcp_value) : bool :=
  match v with
  | CtcpNone => true
  | _ => false
  end.

(** Calls into methods of the class defined by the other modules of the
    package, in the order they were made. *)
Inductive ext_call :=
  | CallNotice (target body : string)        (* self.notice(target, body) *)
  | CallJoin (channel : string)              (* self.join(channel) *)
  | CallParseCmode (mode target : string)    (* self.parse_cmode_string(..) *)
  | CallQuit                                 (* self.quit() *)
  | CallParse (data : string).               (* self._parse(data) *)

(** The instance.  [channels] keeps the order in which [for channel in
    self.channels] visits the keys; [sock_in] lists the chunks the
    successive [socket.recv(4096)] calls return before the peer closes (after
    which recv returns the empty string); [sock_out] lists what was passed
    to [socket.send]. *)
Record IRC := mkIRC {
  encoding : string;
  fallback_encoding : string;
  ctcps : list (string * ctcp_value);
  buffer : list string;
  index : Z;
  sock_in : list string;
  sock_out : list string;
  channels : list (string * gmap string chan_value);
  current_nick : string;
  lusers : gmap string string;
  error_dictionary : gmap string string;
  calls : list ext_call;
}.

Definition set_encoding (e : string) (st : IRC) : IRC :=
  mkIRC e (fallback_encoding st) (ctcps st) (buffer st) (index st)
        (sock_in st) (sock_out st) (channels st) (current_nick st)
        (lusers st) (error_dictionary st) (calls st).

Definition set_buffer (b : list string) (st : IRC) : IRC :=
  mkIRC (encoding st) (fallback_encoding st) (ctcps st) b (index st)
        (sock_in st) (sock_out st) (channels st) (current_nick st)
        (lusers st) (error_dictionary st) (calls st).

Definition set_index (i : Z) (st : IRC) : IRC :=
  mkIRC (encoding st) (fallback_encoding st) (ctcps st) (buffer st) i
        (sock_in st) (sock_out st) (channels st) (current_nick st)
        (lusers st) (error_dictionary st) (calls st).

Definition set_sock_in (l : list string) (st : IRC) : IRC :=
  mkIRC (encoding st) (fallback_encoding st) (ctcps st) (buffer st) (index st)
        l (sock_out st) (channels st) (current_nick st)
        (lusers st) (error_dictionary st) (calls st).

Definition set_sock_out (l : list string) (st : IRC) : IRC :=
  mkIRC (encoding st) (fallback_encoding st) (ctcps st) (buffer st) (index st)
        (sock_in st) l (channels st) (current_nick st)
        (lusers st) (error_dictionary st) (calls st).

Definition set_channels (c : list (string * gmap string chan_value))
    (st : IRC) : IRC :=
  mkIRC (encoding st) (fallback_encoding st) (ctcps st) (buffer st) (index st)
        (sock_in st) (sock_out st) c (current_nick st)
        (lusers st) (error_dictionary st) (calls st).

Definition set_current_nick (n : string) (st : IRC) : IRC :=
  mkIRC (encoding st) (fallback_encoding st) (ctcps st) (buffer st) (index st)
        (sock_in st) (sock_out st) (channels st) n
        (lusers st) (error_dictionary st) (calls st).

Definition set_lusers (l : gmap string string) (st : IRC) : IRC :=
  mkIRC (encoding st) (fallback_encoding st) (ctcps st) (buffer st) (index st)
        (sock_in st) (sock_out st) (channels st) (current_nick st)
        l (error_dictionary st) (calls st).


Definition set_calls (c : list ext_call) (st : IRC) : IRC :=
  mkIRC (encoding st) (fallback_encoding st) (ctcps st) (buffer st) (index st)
        (sock_in st) (sock_out st) (channels st) (current_nick st)
        (lusers st) (error_dictionary st) c.

(** ** Methods as state transformers

    A raised exception keeps the mutations made before it: Python does not
    roll back. *)

Definition M (A : Type) : Type := IRC -> IRC * outcome A.

Definition ret {A} (a : A) : M A := fun st => (st, Return a).
Definition raise {A} (e : exn) : M A := fun st => (st, Raise e).

Definition bind {A B} (m : M A) (k : A -> M B) : M B :=
  fun st =>
    match m st with
    | (st', Return a) => k a st'
    | (st', Raise e) => (st', Raise e)
    | (st', Hang) => (st', Hang)
    | (st', OutOfFuel) => (st', OutOfFuel)
    end.

Notation "x <- m ;; k" := (bind m (fun x => k))
  (at level 100, m at level 99, k at level 200, right associativity,
   only parsing).
Notation "m ;;; k" := (bind m (fun _ => k))
  (at level 100, k at level 200, right associativity, only parsing).

Definition get {A} (f : IRC -> A) : M A := fun st => (st, Return (f st)).
Definition modify (f : IRC -> IRC) : M unit := fun st => (f st, Return tt).

(** [o] or, when it is [None], the exception [e] *)
Definition orraise {A} (e : exn) (o : option A) : M A :=
  match o with
  | Some a => ret a
  | None => raise e
  end.

(** [l[i]] *)
Definition item {A} (l : list A) (i : Z) : M A := orraise IndexError (py_index l i).

(** ** Events and identities *)

(** What [_from_] returns: the tuple (nick, ident, host), or the argument
    as it is. *)
Inductive origin :=
  | Hostmask (nick ident host : string)
  | Opaque (who : string).

(** The tuples [stream] returns, by shape. *)
Inductive event :=
  | EvJoinSelf (channel : string)      (* 'JOIN', self.join(channel) *)
  | EvJoin (who : origin) (channel : string)
  | EvPart (who : origin) (channel reason : string)
  | EvPrivmsg (who : origin) (target msg : string)
  | EvAction (who : origin) (target action : string)
  | EvCtcp (who : origin) (target rctcp : string)
  | EvCtcpReply (who : origin) (target msg : string)
  | EvNotice (who : origin) (target msg : string)
  | EvMode (who : origin) (target mode : string)
  | EvUserMode (mode : string)
  | EvKick (who : origin) (channel nick reason : string)
  | EvInvite (who : origin) (target channel : string)
  | EvNick (who : origin) (new_nick : string)
  | EvTopic (who : origin) (channel topic : string)
  | EvQuit (who : origin) (msg : string)
  | EvLusers (stats : gmap string string)   (* self.lusers, as it is then *)
  | EvError (text : string)
  | EvUnknown (data : string).         (* 'UNKNOWN', self._parse(data) *)

(** ** Dictionaries *)

(** [self.channels.get(k)] *)
Fixpoint chan_get {V} (chans : list (string * V)) (k : string) : option V :=
  match chans with
  | [] => None
  | (k', v) :: rest => if decide (k' = k) then Some v else chan_get rest k
  end.

(** The dict after the value under an existing key [k] was replaced. *)
Fixpoint chan_set {V} (chans : list (string * V)) (k : string) (v : V)
    : list (string * V) :=
  match chans with
  | [] => []
  | (k', v') :: rest =>
      if decide (k' = k) then (k', v) :: rest else (k', v') :: chan_set rest k v
  end.

(** ** The methods of [IRC] *)

Definition when (b : bool) (m : M unit) : M unit := if b then m else ret tt.

Fixpoint for_each {A} (l : list A) (body : A -> M unit) : M unit :=
  match l with
  | [] => ret tt
  | x :: l' => body x ;;; for_each l' body
  end.

(** Record a call of a method that the package defines in another
    module. *)
Definition call (c : ext_call) : M unit :=
  modify (fun st => set_calls (calls st ++ [c]) st).

(** Modelled from the spec: [notice] belongs to the sending module, which
    is not part of the sources at hand.  Section 4.5: the reply is sent back
    as a NOTICE to the requester.  The call is recorded with its target and
    body, which [stream] computes; the write to the socket that follows is
    left to that module and is not in [sock_out]. *)
Definition notice (target body : string) : M unit :=
  call (CallNotice target body).

(** Modelled from the spec: [join] belongs to the channel module, which is
    not part of the sources at hand.  Section 4.4: the external join
    confirmation path, whose result is emitted again.  The call is recorded;
    [EvJoinSelf] stands for the event made of its result.  What the path
    does to the client (it reads the JOIN line and creates the channel) is
    left to that module: nothing below speaks of the buffer, the cursor or
    the channels after a JOIN to a channel that the client does not hold. *)
Definition join (channel : string) : M unit :=
  call (CallJoin channel).

(** Modelled from the spec: [parse_cmode_string] is the mode-string parser
    of the channel module, which is not part of the sources at hand.
    Section 4.4: it applies the mode string to the named channel's state.
    The call is recorded; the change of the channel is left to that module:
    nothing below speaks of the channels after a MODE line. *)
Definition parse_cmode_string (mode target : string) : M unit :=
  call (CallParseCmode mode target).

(** Modelled from the spec: [quit] belongs to the connection module, which
    is not part of the sources at hand.  Section 4.4: the external
    disconnect.  The call is recorded. *)
Definition quit : M unit :=
  call CallQuit.

(** Modelled from the spec: [exception] belongs to the exceptions module,
    which is not part of the sources at hand.  Sections 4.4 and 7: it raises a
    protocol-error signal carrying the code. *)
Definition exception (code : string) : M unit :=
  raise (ProtocolError code).

(** Modelled from the spec: [_parse] is the generic parser of another
    module, which is not part of the sources at hand.  Section 4.4: a line
    that no branch takes falls through to it and its result is emitted as
    the UNKNOWN event; a reply whose code is in the error-code set cuts the
    classification short and raises the protocol-error signal (sections 4.4
    and 7).  The line is split as [recv] splits it and [exception] is called
    for a code of the set; otherwise the call is recorded, and [EvUnknown]
    stands for the event made of its result. *)
Definition _parse (rt : Runtime) (data : string) : M unit :=
  let msg := Str.words_max (isspace rt) 3 data in
  code <- item msg 1 ;;
  errors <- get error_dictionary ;;
  when (bool_decide (is_Some (errors !! code))) (exception code) ;;;
  call (CallParse data).

(** [find(haystack, needle)] *)
Definition find (haystack needle : string) : bool :=
  let qstatus := Str.find haystack needle in
  if decide (qstatus = -1) then false else true.

(** [ctcp_encode(msg)] *)
Definition ctcp_encode (msg : string) : string :=
  chr SOH +:+ msg +:+ chr SOH.

(** [ctcp_decode(msg)] *)
Definition ctcp_decode (msg : string) : string :=
  Str.replace (chr SOH) "" msg.

(** [_from_(who)] *)
Definition _from_ (who : string) : origin :=
  let host := Str.split1 "@" who in
  match host !! 0%nat with
  | None => Opaque who
  | Some host0 =>
      let nickident := Str.split1 "!" host0 in
      match nickident !! 0%nat, nickident !! 1%nat, host !! 1%nat with
      | Some nick, Some ident, Some host1 => Hostmask nick ident host1
      | _, _, _ => Opaque who
      end
  end.

(** [who[0]] for what [_from_] returned: the nick of the tuple, or the
    first character of the string. *)
Definition origin_first (who : origin) : M string :=
  match who with
  | Hostmask nick _ _ => ret nick
  | Opaque "" => raise IndexError
  | Opaque (String c _) => ret (chr c)
  end.

(** [_resetbuffer()] *)
Definition _resetbuffer : M unit :=
  modify (fun st => set_buffer [] (set_index 0 st)).

Section Methods.

Variable rt : Runtime.

(** [send(msg)] *)
Definition send (msg : string) : M unit := fun st =>
  let msg :=
    Str.replace (chr LF) "\n" (Str.replace (chr CR) "\r" msg) +:+ _clrf in
  let data :=
    if 2 <? version_major rt then
      match encode rt (encoding st) msg with
      | CodecErr UnknownEncoding => encode rt (fallback_encoding st) msg
      | r => r
      end
    else
      match encode rt (encoding st) msg with
      | CodecErr Undecodable => encode rt (fallback_encoding st) msg
      | r => r
      end in
  match data with
  | CodecOK d => (set_sock_out (sock_out st ++ [d]) st, Return tt)
  | CodecErr e => (st, Raise (exn_of_codec e))
  end.

(** [self.socket.recv(4096)] *)
Definition sock_recv : M string := fun st =>
  match sock_in st with
  | [] => (st, Return "")
  | chunk :: rest => (set_sock_in rest st, Return chunk)
  end.

(** What one pass of the read loop of [mcon] adds to [sdata]. *)
Definition recv_text : M string := fun st =>
  if 2 <? version_major rt then
    match sock_recv st with
    | (st1, Return chunk) =>
        match decode rt (encoding st1) chunk with
        | CodecOK s => (st1, Return s)
        | CodecErr UnknownEncoding =>
            match sock_recv st1 with
            | (st2, Return chunk2) =>
                match decode rt (fallback_encoding st2) chunk2 with
                | CodecOK s => (st2, Return s)
                | CodecErr e => (st2, Raise (exn_of_codec e))
                end
            | (st2, o) => (st2, o)
            end
        | CodecErr e => (st1, Raise (exn_of_codec e))
        end
    | (st1, o) => (st1, o)
    end
  else sock_recv st.

(** The test of the read loop on [sdata[-1]], then what to do. *)
Definition until_newline (sdata : string) (again : M string) : M string :=
  match Str.last sdata with
  | None => raise IndexError
  | Some c => if decide (c = LF) then ret sdata else again
  end.

(** The read loop of [mcon].  Each pass takes a chunk from the socket; once
    the peer has closed, a pass that neither ends the loop nor raises is
    repeated for ever. *)
Fixpoint read_loop (fuel : nat) (sdata : string) : M string :=
  until_newline sdata
    (match fuel with
     | O => fun st => (st, OutOfFuel)
     | S k =>
         closed <- get (fun st => bool_decide (sock_in st = [])) ;;
         let sdata := if decide (sdata = " ") then "" else sdata in
         text <- recv_text ;;
         let sdata := sdata +:+ text in
         if closed : bool
         then until_newline sdata (fun st => (st, Hang))
         else read_loop k sdata
     end).

(** The body of [for line in lines] in [mcon]. *)
Definition mcon_line (line : string) : M unit :=
  when (bool_decide (Str.find line "PING :" = 0))
       (send (Str.replace "PING" "PONG" line)) ;;;
  when (bool_decide (line ≠ ""))
       (modify (fun st => set_buffer (buffer st ++ [line]) st)).

(** [mcon()] *)
Definition mcon : M unit :=
  pending <- get (fun st => length (sock_in st)) ;;
  sdata <- read_loop (S pending) " " ;;
  let lines := Str.split _clrf sdata in
  for_each lines mcon_line.

(** The [while self.find(msg, 'PING :')] loop of [_recv]. *)
Fixpoint skip_pings (fuel : nat) (msg : string) : M string :=
  if find msg "PING :" then
    match fuel with
    | O => fun st => (st, OutOfFuel)
    | S k =>
        modify (fun st => set_index (index st + 1) st) ;;;
        next <- get (fun st => py_index (buffer st) (index st)) ;;
        match next with
        | Some msg' => skip_pings k msg'
        | None =>
            mcon ;;;
            modify (fun st => set_index (index st - 1) st) ;;;
            skip_pings k msg
        end
    end
  else ret msg.

(** [_recv()] *)
Definition _recv (fuel : nat) : M string :=
  exhausted <- get (fun st =>
    bool_decide (Z.of_nat (length (buffer st)) <= index st)) ;;
  when exhausted mcon ;;;
  full <- get (fun st => bool_decide (199 <= index st)) ;;
  when full (_resetbuffer ;;; mcon) ;;;
  i <- get index ;;
  buf <- get buffer ;;
  msg <- item buf i ;;
  msg <- skip_pings fuel msg ;;
  modify (fun st => set_index (index st + 1) st) ;;;
  ret msg.

(** [readable(timeout)]; [sel] tells whether [select] reports the socket
    readable before the timeout. *)
Definition readable (sel : bool) : M bool :=
  pending <- get (fun st =>
    bool_decide (index st < Z.of_nat (length (buffer st)))) ;;
  if pending : bool then ret true
  else if sel then ret true else ret false.


End Methods.

(** ** The classifier *)

(** [self.channels[channel]] *)
Definition get_entry (channel : string) : M (gmap string chan_value) :=
  chans <- get channels ;;
  orraise KeyError (chan_get chans channel).

(** Write back the entry of [channel] after it was mutated in place. *)
Definition put_entry (channel : string) (entry : gmap string chan_value)
    : M unit :=
  modify (fun st => set_channels (chan_set (channels st) channel entry) st).

(** [self.channels[channel]['USERS']] *)
Definition get_users (channel : string) : M chan_value :=
  entry <- get_entry channel ;;
  orraise KeyError (entry !! "USERS").

(** [self.channels[channel]['USERS'] = v], for the dict mutated in place *)
Definition put_users (channel : string) (users : gmap string (list string))
    : M unit :=
  entry <- get_entry channel ;;
  put_entry channel (<["USERS" := VUsers users]> entry).

(** [d[k]] for [d = self.channels[channel]['USERS']] *)
Definition users_getitem (d : chan_value) (k : string) : M (list string) :=
  match d with
  | VUsers users => orraise KeyError (users !! k)
  | VStr _ => raise TypeError
  end.

(** [del self.channels[channel]['USERS'][k]], [d] being the dict *)
Definition users_delitem (channel : string) (d : chan_value) (k : string)
    : M unit :=
  match d with
  | VUsers users =>
      match users !! k with
      | Some _ => put_users channel (delete k users)
      | None => raise KeyError
      end
  | VStr _ => raise TypeError
  end.

(** [self.channels[channel]['USERS'][k] = v], [d] being the dict *)
Definition users_setitem (channel : string) (d : chan_value) (k : string)
    (v : list string) : M unit :=
  match d with
  | VUsers users => put_users channel (<[k := v]> users)
  | VStr _ => raise TypeError
  end.

(** [self.lusers[k] = v] *)
Definition set_luser (k v : string) : M unit :=
  modify (fun st => set_lusers (<[k := v]> (lusers st)) st).

(** [' '.join(segments[n:]).replace(':', '', 1)] *)
Definition trailing (n : nat) (segments : list string) : string :=
  Str.replace1 ":" "" (Str.join " " (drop n segments)).

Section Classifier.

Variable rt : Runtime.

Definition on_join (segments : list string) : M event :=
  s0 <- item segments 0 ;;
  let who := _from_ (Str.drop 1 s0) in
  s2 <- item segments 2 ;;
  let channel := Str.drop 1 s2 in
  chans <- get channels ;;
  match chan_get chans channel with
  | None =>
      modify (fun st => set_index (index st - 1) st) ;;;
      join channel ;;;
      ret (EvJoinSelf channel)
  | Some _ =>
      d <- get_users channel ;;
      nick <- origin_first who ;;
      users_setitem channel d nick [""; ""; ""; ""; ""] ;;;
      ret (EvJoin who channel)
  end.

Definition on_part (segments : list string) : M event :=
  s0 <- item segments 0 ;;
  let who := _from_ (Str.replace1 ":" "" s0) in
  channel <- item segments 2 ;;
  d <- get_users channel ;;
  nick <- origin_first who ;;
  users_delitem channel d nick ;;;
  let reason := trailing 3 segments in
  ret (EvPart who channel reason).

(** The [for ctcp in self.ctcps.keys()] loop; [table] lists the items
    still to visit. *)
Fixpoint ctcp_reply (table : list (string * ctcp_value))
    (segments : list string) (who : origin) : M unit :=
  match table with
  | [] => ret tt
  | (ctcp, v) :: rest =>
      seg0 <- item segments 0 ;;
      if bool_decide (ctcp = seg0) && negb (is_none v) then
        response <-
          match v with
          | CtcpCall result => ret result
          | CtcpInt n =>
              r <- item segments n ;;
              ret (ctcp +:+ " " +:+ r)
          | CtcpStr s =>
              match int_of_str rt s with
              | Some n =>
                  r <- item segments n ;;
                  ret (ctcp +:+ " " +:+ r)
              | None => ret s
              end
          | CtcpNone => ret ""
          end ;;
        nick <- origin_first who ;;
        notice nick (ctcp_encode response)
      else ctcp_reply rest segments who
  end.

Definition on_privmsg (segments : list string) : M event :=
  s0 <- item segments 0 ;;
  let who := _from_ (Str.replace1 ":" "" s0) in
  let msg := trailing 3 segments in
  target <- item segments 2 ;;
  if bool_decide (Str.find msg (chr SOH) = 0) then
    let rctcp := upper rt (ctcp_decode msg) in
    let segments := Str.words (isspace rt) rctcp in
    seg0 <- item segments 0 ;;
    if bool_decide (seg0 = "ACTION") then
      let action := Str.join " " (drop 1 (Str.words (isspace rt) rctcp)) in
      ret (EvAction who target action)
    else
      table <- get ctcps ;;
      ctcp_reply table segments who ;;;
      ret (EvCtcp who target rctcp)
  else ret (EvPrivmsg who target msg).

Definition on_notice (segments : list string) : M event :=
  s0 <- item segments 0 ;;
  let who := _from_ (Str.replace1 ":" "" s0) in
  let msg := trailing 3 segments in
  if bool_decide (Str.find msg (chr SOH) = 0) then
    let msg := ctcp_decode msg in
    target <- item segments 2 ;;
    ret (EvCtcpReply who target msg)
  else
    target <- item segments 2 ;;
    ret (EvNotice who target msg).

Definition on_mode (segments : list string) : M event :=
  let mode := trailing 3 segments in
  s0 <- item segments 0 ;;
  let who := _from_ (Str.drop 1 s0) in
  target <- item segments 2 ;;
  me <- get current_nick ;;
  if bool_decide (target ≠ me) then
    parse_cmode_string mode target ;;;
    ret (EvMode who target mode)
  else ret (EvUserMode (Str.replace1 ":" "" mode)).

(** The KICK branch.  [channel] is a local variable of [stream] that only
    other branches assign: reading it here raises UnboundLocalError. *)
Definition on_kick (segments : list string) : M event :=
  s0 <- item segments 0 ;;
  let who := _from_ (Str.replace1 ":" "" s0) in
  me <- get current_nick ;;
  kicked <- item segments 3 ;;
  when (bool_decide (me = kicked))
    (entry <- get_entry "USERS" ;;
     s2 <- item segments 2 ;;
     match entry !! s2 with
     | Some _ => put_entry "USERS" (delete s2 entry)
     | None => raise KeyError
     end) ;;;
  (raise (UnboundLocalError "channel") : M unit) ;;;
  let reason := trailing 4 segments in
  s2 <- item segments 2 ;;
  ret (EvKick who s2 kicked reason).

Definition on_invite (segments : list string) : M event :=
  s0 <- item segments 0 ;;
  let who := _from_ (Str.replace1 ":" "" s0) in
  s3 <- item segments 3 ;;
  let channel := Str.replace1 ":" "" s3 in
  target <- item segments 2 ;;
  ret (EvInvite who target channel).

(** The body of [for channel in self.channels] in the NICK branch. *)
Definition rename_in (who : origin) (new_nick channel : string) : M unit :=
  d <- get_users channel ;;
  old <- origin_first who ;;
  priv_level <- users_getitem d old ;;
  d <- get_users channel ;;
  old <- origin_first who ;;
  users_delitem channel d old ;;;
  d <- get_users channel ;;
  users_setitem channel d new_nick priv_level.

Definition on_nick (segments : list string) : M event :=
  s0 <- item segments 0 ;;
  let who := _from_ (Str.replace1 ":" "" s0) in
  let new_nick := Str.join " " (drop 2 segments) in
  me <- get current_nick ;;
  old <- origin_first who ;;
  when (bool_decide (me = old))
       (modify (set_current_nick new_nick)) ;;;
  chans <- get channels ;;
  for_each chans.*1 (rename_in who new_nick) ;;;
  ret (EvNick who new_nick).

Definition on_topic (segments : list string) : M event :=
  s0 <- item segments 0 ;;
  let who := _from_ (Str.replace1 ":" "" s0) in
  channel <- item segments 2 ;;
  let topic := trailing 3 segments in
  entry <- get_entry channel ;;
  put_entry channel (<["TOPIC" := VStr topic]> entry) ;;;
  ret (EvTopic who channel topic).

Definition on_quit (segments : list string) : M event :=
  s0 <- item segments 0 ;;
  let who := _from_ (Str.replace1 ":" "" s0) in
  let msg := trailing 2 segments in
  ret (EvQuit who msg).

(** [self.lusers[k] = segments[i]] *)
Definition luser_field (k : string) (segments : list string) (i : Z)
    : M unit :=
  v <- item segments i ;;
  set_luser k v.

Definition on_lusers (fields : M unit) : M event :=
  fields ;;;
  stats <- get lusers ;;
  ret (EvLusers stats).

(** The [if]/[elif] chain of [stream] on the line [data]. *)
Definition classify (data : string) : M event :=
  let segments := Str.words (isspace rt) data in
  command <- item segments 1 ;;
  if bool_decide (command = "JOIN") then on_join segments
  else if bool_decide (command = "PART") then on_part segments
  else if bool_decide (command = "PRIVMSG") then on_privmsg segments
  else if bool_decide (command = "NOTICE") then on_notice segments
  else if bool_decide (command = "MODE") then on_mode segments
  else if bool_decide (command = "KICK") then on_kick segments
  else if bool_decide (command = "INVITE") then on_invite segments
  else if bool_decide (command = "NICK") then on_nick segments
  else if bool_decide (command = "TOPIC") then on_topic segments
  else if bool_decide (command = "QUIT") then on_quit segments
  else if bool_decide (command = "250") then
    on_lusers (luser_field "HIGHESTCONNECTIONS" segments 6 ;;;
               s9 <- item segments 9 ;;
               set_luser "TOTALCONNECTIONS" (Str.drop 1 s9))
  else if bool_decide (command = "251") then
    on_lusers (luser_field "USERS" segments 5 ;;;
               luser_field "INVISIBLE" segments 8 ;;;
               luser_field "SERVERS" segments 11)
  else if bool_decide (command = "252") then
    on_lusers (luser_field "OPERATORS" segments 3)
  else if bool_decide (command = "253") then
    on_lusers (luser_field "UNKNOWN" segments 3)
  else if bool_decide (command = "254") then
    on_lusers (luser_field "CHANNELS" segments 3)
  else if bool_decide (command = "255") then
    on_lusers (luser_field "CLIENTS" segments 5 ;;;
               luser_field "LSERVERS" segments 8)
  else if bool_decide (command = "265") then
    on_lusers (luser_field "LOCALUSERS" segments 6 ;;;
               luser_field "LOCALMAX" segments 8)
  else if bool_decide (command = "266") then
    on_lusers (luser_field "GLOBALUSERS" segments 6 ;;;
               luser_field "GLOBALMAX" segments 8)
  else
    s0 <- item segments 0 ;;
    if bool_decide (s0 = "ERROR") then
      quit ;;;
      ret (EvError (trailing 1 segments))
    else
      _parse rt data ;;;
      ret (EvUnknown data).

(** [stream(timeout)]: [None] when nothing is readable in time.  Only the
    comparison of [timeout] with 1000 matters here, so [forever] stands for
    [timeout == 1000]. *)
Definition stream (fuel : nat) (forever sel : bool) : M (option event) :=
  ready <- (if forever then ret true else readable sel) ;;
  if ready : bool then
    data <- _recv rt fuel ;;
    ev <- classify data ;;
    ret (Some ev)
  else ret None.

End Classifier.

(** ** Two interpreters to run the model

    Both are exact on ASCII text.  The codec registry is cut down to the
    two codecs that are total on this string model, [ascii] and [latin-1];
    any other name is unknown to it. *)

Module Py.

Definition code (c : ascii) : N := N_of_ascii c.

(** Blanks of a Python 2 byte string: space, \t \n \v \f \r *)
Definition isspace2 (c : ascii) : bool :=
  ((9 <=? code c) && (code c <=? 13) || (code c =? 32))%N.

(** Blanks of a Python 3 string below U+0100: the same, the separators
    0x1c..0x1f, NEL and the no-break space *)
Definition isspace3 (c : ascii) : bool :=
  (isspace2 c || (28 <=? code c) && (code c <=? 31)
   || (code c =? 133) || (code c =? 160))%N.

Definition upper_char (c : ascii) : ascii :=
  if ((97 <=? code c) && (code c <=? 122))%N
  then ascii_of_N (code c - 32) else c.

(** [s.upper()] on the letters a..z *)
Fixpoint upper (s : string) : string :=
  match s with
  | "" => ""
  | String c s' => String (upper_char c) (upper s')
  end.

Fixpoint rev_onto (s acc : string) : string :=
  match s with
  | "" => acc
  | String c s' => rev_onto s' (String c acc)
  end.

(** [s.strip()] *)
Definition strip (sp : ascii -> bool) (s : string) : string :=
  rev_onto (Str.lstrip sp (rev_onto (Str.lstrip sp s) "")) "".

Fixpoint digits (s : string) (acc : Z) : option Z :=
  match s with
  | "" => Some acc
  | String c s' =>
      if ((48 <=? code c) && (code c <=? 57))%N
      then digits s' (10 * acc + Z.of_N (code c - 48))
      else None
  end.

(** [int(s)]: decimal digits with an optional sign, blanks around them *)
Definition int_of_str (sp : ascii -> bool) (s : string) : option Z :=
  match strip sp s with
  | "" => None
  | String "+" ((String _ _) as d) => digits d 0
  | String "-" ((String _ _) as d) => Z.opp <$> digits d 0
  | String "+" "" | String "-" "" => None
  | d => digits d 0
  end.

Fixpoint is_ascii (s : string) : bool :=
  match s with
  | "" => true
  | String c s' => (code c <? 128)%N && is_ascii s'
  end.

(** [data.decode(encoding)] in Python 3 (below version 3 the framer does
    not decode) *)
Definition decode3 (encoding data : string) : codec_result :=
  if decide (encoding = "ascii") then
    if is_ascii data then CodecOK data else CodecErr Undecodable
  else if decide (encoding = "latin-1") then CodecOK data
  else CodecErr UnknownEncoding.

(** [bytes(msg, encoding)] in Python 3 *)
Definition encode3 (encoding msg : string) : codec_result :=
  if decide (encoding = "ascii") then
    if is_ascii msg then CodecOK msg else CodecErr Unencodable
  else if decide (encoding = "latin-1") then CodecOK msg
  else CodecErr UnknownEncoding.

(** [msg.encode(encoding)] on a Python 2 byte string: the codec is looked
    up, then the string is first decoded as ASCII *)
Definition encode2 (encoding msg : string) : codec_result :=
  if bool_decide (encoding = "ascii") || bool_decide (encoding = "latin-1")
  then
    if is_ascii msg then CodecOK msg else CodecErr Undecodable
  else CodecErr UnknownEncoding.

End Py.

Definition cpython2 : Runtime := {|
  version_major := 2;
  isspace := Py.isspace2;
  upper := Py.upper;
  int_of_str := Py.int_of_str Py.isspace2;
  decode := Py.decode3;
  encode := Py.encode2;
|}.

Definition cpython3 : Runtime := {|
  version_major := 3;
  isspace := Py.isspace3;
  upper := Py.upper;
  int_of_str := Py.int_of_str Py.isspace3;
  decode := Py.decode3;
  encode := Py.encode3;
|}.

(** A client as [__init__] configures it, both encodings being its
    [encoding] argument, with an empty buffer and no channel joined. *)
Definition fresh (enc : string) (table : list (string * ctcp_value))
    (nick : string) : IRC := {|
  encoding := enc;
  fallback_encoding := enc;
  ctcps := table;
  buffer := [];
  index := 0;
  sock_in := [];
  sock_out := [];
  channels := [];
  current_nick := nick;
  lusers := ∅;
  error_dictionary := ∅;
  calls := [];
|}.

(** ** Reference definitions

    Functions written after the description of the behaviour rather than
    after the code, to compare the code with. *)

(** The escaping of a message in the words of its description: every
    carriage return becomes the two characters backslash, r and every
    newline the two characters backslash, n. *)
Fixpoint escape_crlf (msg : string) : string :=
  match msg with
  | "" => ""
  | String c msg' =>
      (if decide (c = CR) then "\r"
       else if decide (c = LF) then "\n"
       else chr c) +:+ escape_crlf msg'
  end.

(** The rename of a nick in the words of its description: in a channel
    that lists [old], the key [old] is removed and [new] is bound to the
    attribute list [old] had; any other channel is left alone. *)
Definition renamed (old new : string) (entry : gmap string chan_value)
    : gmap string chan_value :=
  match entry !! "USERS" with
  | Some (VUsers users) =>
      match users !! old with
      | Some attrs =>
          <["USERS" := VUsers (<[new := attrs]> (delete old users))]> entry
      | None => entry
      end
  | _ => entry
  end.

Definition rename_all (old new : string)
    (chans : list (string * gmap string chan_value))
    : list (string * gmap string chan_value) :=
  (λ ce, (ce.1, renamed old new ce.2)) <$> chans.

(** The channel entry lists the nick. *)
Definition lists_nick (nick : string) (entry : gmap string chan_value)
    : Prop :=
  ∃ users attrs,
    entry !! "USERS" = Some (VUsers users) ∧ users !! nick = Some attrs.

(** [n] calls of the reader in a row: what each came to, and the client
    after the last. *)
Fixpoint deliveries (rt : Runtime) (n : nat) (st : IRC)
    : list (outcome string) * IRC :=
  match n with
  | O => ([], st)
  | S k =>
      let '(st1, o) := _recv rt 1 st in
      let '(os, st2) := deliveries rt k st1 in
      (o :: os, st2)
  end.

(** ** Predicates on methods *)

(** A method leaves the attribute [f] as it found it. *)
Definition preserves {A B} (f : IRC → B) (m : M A) : Prop :=
  ∀ st, f (m st).1 = f st.

(** ** States used in the examples *)

Module Ex.

(** A client with nothing buffered and nothing to read, encoding ascii. *)
Definition idle : IRC := fresh "ascii" [] "me".

(** The server sends one probe whose token contains the probe word. *)
Definition probed : IRC :=
  set_sock_in ["PING :PINGU" +:+ _clrf] idle.

(** The server ends its probe with a bare newline. *)
Definition probed_lf : IRC :=
  set_sock_in ["PING :abc" +:+ chr LF] idle.

(** The token of the probe holds a byte that is not ASCII; the client
    runs on Python 2, where the framer does not decode. *)
Definition probed_latin : IRC :=
  set_sock_in ["PING :caf" +:+ chr "233"%char +:+ _clrf] idle.

(** A user's message whose text holds the probe prefix, and the line the
    server sends after it. *)
Definition probe_talk : string := ":bob!b@h PRIVMSG #chan :PING :are you there".
Definition greeting : string := ":srv NOTICE me :hi".

(** Both lines arrive in one chunk. *)
Definition chat : IRC :=
  set_sock_in [probe_talk +:+ _clrf +:+ greeting +:+ _clrf] idle.

Definition plain : list string := [""; ""; ""; ""; ""].
Definition op : list string := ["@"; ""; ""; ""; ""].

Definition members (l : list (string * list string)) : gmap string chan_value :=
  {[ "USERS" := VUsers (list_to_map l); "TOPIC" := VStr "" ]}.

(** In #chan with bob and an operator; the operator kicks bob. *)
Definition kick_other : IRC :=
  set_buffer [":op!o@h KICK #chan bob :bye"]
    (set_channels [("#chan", members [("bob", plain); ("op", op)])] idle).

(** The same line when the client itself is bob. *)
Definition kick_self : IRC := set_current_nick "bob" kick_other.

(** In #a with carol and in #b with alice; alice renames herself. *)
Definition rename : IRC :=
  set_buffer [":alice!a@h NICK bob"]
    (set_channels [("#a", members [("carol", plain)]);
                   ("#b", members [("alice", op)])] idle).

(** The CTCP VERSION request of alice to #chan. *)
Definition version_request : string :=
  ":alice!a@h PRIVMSG #chan :" +:+ ctcp_encode "VERSION".

(** The client configured to answer VERSION with a constant, the request
    waiting in its buffer. *)
Definition asked_version : IRC :=
  set_buffer [version_request]
    (fresh "ascii" [("VERSION", CtcpStr "Lurklib 1.0")] "me").

(** A CTCP ACTION of a to #ch. *)
Definition action_line : string :=
  ":a!b@c PRIVMSG #ch :" +:+ ctcp_encode "ACTION waves".

Definition acted : IRC := set_buffer [action_line] idle.

(** A server reply with an error code that the client knows as such. *)
Definition nick_in_use_line : string :=
  ":srv 433 * me :Nickname is already in use".


(** The server announced a charset: the primary encoding is now ascii, the
    fallback is the one given at construction.  The next chunk holds a byte
    that is not ASCII. *)
Definition garbled_chunk : string :=
  "caf" +:+ chr "233"%char +:+ _clrf.

Definition garbled : IRC :=
  set_sock_in [garbled_chunk] (set_encoding "ascii" (fresh "latin-1" [] "me")).

(** The announced charset is not known to the interpreter. *)
Definition unknown_charset : IRC :=
  set_sock_in [":srv NOTICE me :one" +:+ _clrf; ":srv NOTICE me :two" +:+ _clrf]
    (set_encoding "x-klingon" (fresh "latin-1" [] "me")).

(** 201 lines in the buffer, 199 of them delivered, and more to come from
    the socket. *)
Definition full : IRC :=
  set_sock_in [":fresh" +:+ _clrf]
    (set_index 199
       (set_buffer (replicate 199 ":old" ++ [":next"; ":after"]) idle)).

(** 199 lines delivered one by one and none unread: the cursor has reached
    the end of the buffer, and the server sends two more lines, one at a
    time. *)
Definition at_mark : IRC :=
  set_sock_in [":first" +:+ _clrf; ":second" +:+ _clrf]
    (set_index 199 (set_buffer (replicate 199 ":old") idle)).



(** A CTCP request in lower case, at a client that answers VERSION with a
    constant. *)
Definition version_lower : string :=
  ":alice!a@h PRIVMSG #chan :" +:+ ctcp_encode "version".

Definition versioned : IRC :=
  fresh "ascii" [("VERSION", CtcpStr "Lurklib 1.0")] "me".

(** The same 201 lines arriving in one chunk at an idle client, followed
    later by one more line. *)
Definition flood : IRC :=
  set_sock_in
    [String.concat _clrf (replicate 199 ":old" ++ [":next"; ":after"; ""]);
     ":fresh" +:+ _clrf]
    idle.

End Ex.

(** ** More predicates on methods *)

(** Every run of the method takes the client to one related to it by
    [R]. *)
Definition keeps {A} (R : IRC → IRC → Prop) (m : M A) : Prop :=
  ∀ st, R st (m st).1.

(** The attributes that neither the framer nor the sender writes. *)
Definition settings (st : IRC) :=
  (encoding st, fallback_encoding st, ctcps st, index st, channels st,
   current_nick st, lusers st, error_dictionary st, calls st).

(** What the framer may do to a client: take chunks from the front of the
    socket, append non-empty lines to the buffer, append to what was sent. *)
Definition framed (st st' : IRC) : Prop :=
  (∃ n, sock_in st' = drop n (sock_in st))
  ∧ (∃ new, buffer st' = buffer st ++ new ∧ Forall (λ line, line ≠ "") new)
  ∧ (∃ out, sock_out st' = sock_out st ++ out)
  ∧ settings st' = settings st.

(** The text that the read loop of [mcon] gets from a chunk: decoded with
    the primary encoding on Python 3, the chunk itself before. *)
Definition chunk_text (rt : Runtime) (st : IRC) (chunk : string)
    : codec_result :=
  if 2 <? version_major rt then decode rt (encoding st) chunk
  else CodecOK chunk.

(** ** More reference definitions *)

(** The reply to a CTCP request by the entry [value] that the table holds
    for its token [key]: nothing for [None]; the result of a callable; the
    token and the word of the request that an integer points at; a string
    that reads as an integer like that integer, any other string as it
    is. *)
Definition reply_to (rt : Runtime) (key : string) (value : ctcp_value)
    (segments : list string) (who : origin) : M unit :=
  match value with
  | CtcpNone => ret tt
  | CtcpCall result =>
      nick <- origin_first who ;;
      notice nick (ctcp_encode result)
  | CtcpInt n =>
      word <- item segments n ;;
      nick <- origin_first who ;;
      notice nick (ctcp_encode (key +:+ " " +:+ word))
  | CtcpStr s =>
      match int_of_str rt s with
      | Some n =>
          word <- item segments n ;;
          nick <- origin_first who ;;
          notice nick (ctcp_encode (key +:+ " " +:+ word))
      | None =>
          nick <- origin_first who ;;
          notice nick (ctcp_encode s)
      end
  end.

(** ** Construction *)

Definition __version__ : string := "0.6.0.2".

(** The reply table that [__init__] installs when its [ctcps] argument is
    [None]; [asctime] is what [time.asctime()] gives by the time TIME is
    asked. *)
Definition default_ctcps (asctime : string) : list (string * ctcp_value) :=
  [("VERSION", CtcpStr ("Lurklib : " +:+ __version__));
   ("SOURCE", CtcpStr "http://github.com/LK-/Lurklib/");
   ("PING", CtcpInt 1);
   ("TIME", CtcpCall asctime)].

(** [self.ctcps] after [__init__(.., ctcps=table)] *)
Definition init_ctcps (asctime : string)
    (table : option (list (string * ctcp_value)))
    : list (string * ctcp_value) :=
  match table with
  | None => default_ctcps asctime
  | Some table => table
  end.

(** ** More states for the examples *)

Module Eg.

(** In #chan with bob, who is an operator there. *)
Definition in_chan : IRC :=
  set_channels [("#chan", Ex.members [("bob", Ex.op)])] Ex.idle.

(** A client with the default reply table. *)
Definition defaults : IRC :=
  fresh "ascii" (default_ctcps "Thu Jan  1 00:00:00 1970") "me".

(** CTCP requests of eve to the client: a PING without its token, a ping
    with a token in lower case, and a request the table has no entry for. *)
Definition ping_bare : string := ":eve!e@h PRIVMSG me :" +:+ ctcp_encode "PING".
Definition finger : string := ":eve!e@h PRIVMSG me :" +:+ ctcp_encode "FINGER".

End Eg.

(** The names of the joined channels, in the order of the store. *)
Definition channel_names (st : IRC) : list string := (channels st).*1.


(** The attribute list of a nick that has just joined. *)
Definition blank_attributes : list string := [""; ""; ""; ""; ""].

(** * Properties *)

(** ** Checks of the model on small inputs *)

Example from_hostmask : _from_ "nick!user@host" = Hostmask "nick" "user" "host".
Proof. reflexivity. Qed.

Example from_server : _from_ "irc.server.example" = Opaque "irc.server.example".
Proof. reflexivity. Qed.

Example from_bang_after_at : _from_ "a@b!c" = Opaque "a@b!c".
Proof. reflexivity. Qed.

Example split_keeps_lone_newline :
  Str.split _clrf ("a" +:+ chr CR +:+ _clrf +:+ "b" +:+ chr LF +:+ _clrf)
  = ["a" +:+ chr CR; "b" +:+ chr LF; ""].
Proof. reflexivity. Qed.

Example words_of_line :
  Str.words Py.isspace3 "  :alice!a@h   PRIVMSG #chan :hello  world "
  = [":alice!a@h"; "PRIVMSG"; "#chan"; ":hello"; "world"].
Proof. reflexivity. Qed.

Example words_max_of_line :
  Str.words_max Py.isspace3 3 "  :alice!a@h   PRIVMSG #chan :hello  world "
  = [":alice!a@h"; "PRIVMSG"; "#chan"; ":hello  world "].
Proof. reflexivity. Qed.

Example replace_is_not_overlapping : Str.replace "aa" "b" "aaaaa" = "bba".
Proof. reflexivity. Qed.

Example negative_index : py_index ["a"; "b"; "c"] (-1) = Some "c".
Proof. reflexivity. Qed.

(** The reply of the framer to a probe, and both lines in the buffer. *)
Example mcon_answers_probe :
  let st := set_sock_in ["PING :tok" +:+ _clrf +:+ Ex.greeting +:+ _clrf] Ex.idle in
  mcon cpython3 st
  = (set_buffer ["PING :tok"; Ex.greeting]
       (set_sock_out ["PONG :tok" +:+ _clrf] (set_sock_in [] st)),
     Return tt).
Proof. reflexivity. Qed.

(** A line cut in two chunks is framed once it is whole. *)
Example mcon_joins_chunks :
  let st := set_sock_in [":srv NOTICE"; " me :hi" +:+ _clrf] Ex.idle in
  mcon cpython3 st
  = (set_buffer [Ex.greeting] (set_sock_in [] st), Return tt).
Proof. reflexivity. Qed.

(** The peer closes in the middle of a line: the read loop spins. *)
Example mcon_hangs_on_closed_socket :
  (mcon cpython3 (set_sock_in [":srv NOTICE"] Ex.idle)).2 = Hang.
Proof. reflexivity. Qed.

(** The peer closes before sending anything: [sdata[-1]] fails. *)
Example mcon_raises_on_closed_socket :
  (mcon cpython3 Ex.idle).2 = Raise IndexError.
Proof. reflexivity. Qed.

(** ** Strings *)

Module StrFacts.

Lemma prefix_empty s : String.prefix "" s = true.
Proof. by destruct s. Qed.

Lemma prefix_char c d s :
  String.prefix (chr c) (String d s) = bool_decide (c = d).
Proof.
  unfold chr. simpl. destruct (ascii_dec c d) as [->|Hne].
  - rewrite prefix_empty. by rewrite bool_decide_eq_true_2.
  - by rewrite bool_decide_eq_false_2.
Qed.

Lemma app_cons c (a b : string) : String c a +:+ b = String c (a +:+ b).
Proof. done. Qed.

Lemma app_empty_l (a : string) : "" +:+ a = a.
Proof. done. Qed.

Lemma app_assoc (a b c : string) : (a +:+ b) +:+ c = a +:+ (b +:+ c).
Proof.
  induction a as [|x a IH]; [done|]. by rewrite !app_cons, IH.
Qed.

Lemma app_empty_r (a : string) : a +:+ "" = a.
Proof.
  induction a as [|x a IH]; [done|]. by rewrite app_cons, IH.
Qed.

(** Replacing a one-character pattern works character by character. *)
Lemma replace_char_cons c new d s :
  Str.replace (chr c) new (String d s)
  = (if bool_decide (c = d) then new else chr d) +:+ Str.replace (chr c) new s.
Proof.
  unfold Str.replace, chr. cbn [Str.replace_go String.length Nat.sub].
  change (String c "") with (chr c). rewrite prefix_char.
  by destruct (bool_decide (c = d)).
Qed.

Lemma replace_char_empty c new : Str.replace (chr c) new "" = "".
Proof. done. Qed.

Lemma replace_char_app c new a b :
  Str.replace (chr c) new (a +:+ b)
  = Str.replace (chr c) new a +:+ Str.replace (chr c) new b.
Proof.
  induction a as [|x a IH]; [done|].
  rewrite app_cons, !replace_char_cons, IH. by rewrite app_assoc.
Qed.

Lemma has_char_app c a b :
  Str.has_char c (a +:+ b) = Str.has_char c a || Str.has_char c b.
Proof.
  induction a as [|x a IH]; [done|].
  rewrite app_cons. simpl. by destruct (decide (c = x)).
Qed.

End StrFacts.

Lemma find_from_absent old s i :
  0 <= i → Str.find_from old s i = -1 →
  String.prefix old s = false.
Proof.
  intros Hi Hf. destruct (String.prefix old s) eqn:Hp; [|done].
  destruct s; cbn [Str.find_from] in Hf; rewrite Hp in Hf; lia.
Qed.

Lemma replace_go_absent old new s i :
  0 <= i → Str.find_from old s i = -1 → Str.replace_go old new 0 s = s.
Proof.
  revert i. induction s as [|c s IH]; intros i Hi Hf; [done|].
  pose proof (find_from_absent _ _ _ Hi Hf) as Hp.
  cbn [Str.replace_go]. rewrite Hp.
  cbn [Str.find_from] in Hf. rewrite Hp in Hf.
  f_equal. apply (IH (i + 1)); [lia | done].
Qed.

Lemma contains_false hay needle :
  Str.contains hay needle = false → Str.find hay needle = -1.
Proof.
  unfold Str.contains. intros H. apply negb_false_iff in H. lia.
Qed.

Lemma find_true_iff hay needle :
  find hay needle = true ↔ Str.find hay needle ≠ -1.
Proof. unfold find. destruct (decide _); split; (done||congruence). Qed.

Lemma py_index_nat {A} (l : list A) (i : Z) :
  0 <= i → py_index l i = l !! Z.to_nat i.
Proof. intros H. unfold py_index. by rewrite (proj2 (Z.leb_le 0 i) H). Qed.

(** Membership in a list that is written out. *)
Ltac in_list :=
  repeat first [ apply list_elem_of_here | apply list_elem_of_further ].

(** ** The state monad *)

Lemma bind_return_inv {A B} (m : M A) (k : A → M B) st st' b :
  bind m k st = (st', Return b) →
  ∃ a st1, m st = (st1, Return a) ∧ k a st1 = (st', Return b).
Proof.
  unfold bind. destruct (m st) as [st1 [a| | |]]; try discriminate.
  intros H. by exists a, st1.
Qed.

Lemma bind_return {A B} (m : M A) (k : A → M B) st st1 a :
  m st = (st1, Return a) → bind m k st = k a st1.
Proof. unfold bind. by intros ->. Qed.

Lemma bind_raise {A B} (m : M A) (k : A → M B) st st1 e :
  m st = (st1, Raise e) → bind m k st = (st1, Raise e).
Proof. unfold bind. by intros ->. Qed.

Lemma bind_get {A B} (f : IRC → A) (k : A → M B) st :
  bind (get f) k st = k (f st) st.
Proof. done. Qed.

Lemma bind_ret {A B} (a : A) (k : A → M B) st : bind (ret a) k st = k a st.
Proof. done. Qed.

Lemma bind_modify {B} (g : IRC → IRC) (k : unit → M B) st :
  bind (modify g) k st = k tt (g st).
Proof. done. Qed.

Lemma bind_assoc {A B C} (m : M A) (k1 : A → M B) (k2 : B → M C) st :
  bind (bind m k1) k2 st = bind m (λ a, bind (k1 a) k2) st.
Proof. unfold bind. by destruct (m st) as [st1 [a| | |]]. Qed.

Lemma bind_ext {A B} (m : M A) (k1 k2 : A → M B) st :
  (∀ a st1, m st = (st1, Return a) → k1 a st1 = k2 a st1) →
  bind m k1 st = bind m k2 st.
Proof.
  intros H. unfold bind. destruct (m st) as [st1 [a| | |]] eqn:Hm; try done.
  by apply H.
Qed.

Lemma item_some {A} (l : list A) (i : Z) (x : A) :
  py_index l i = Some x → item l i = ret x.
Proof. unfold item. by intros ->. Qed.

Lemma item_return_inv {A} (l : list A) (i : Z) st st' (x : A) :
  item l i st = (st', Return x) → py_index l i = Some x ∧ st' = st.
Proof.
  unfold item. destruct (py_index l i); [|discriminate].
  by intros [= -> ->].
Qed.

Section Frame.

Context {B : Type} (f : IRC → B).

Lemma preserves_ret {A} (a : A) : preserves f (ret a).
Proof. done. Qed.

Lemma preserves_raise {A} e : preserves f (raise e : M A).
Proof. done. Qed.

Lemma preserves_get {A} (g : IRC → A) : preserves f (get g).
Proof. done. Qed.

Lemma preserves_orraise {A} e (o : option A) : preserves f (orraise e o).
Proof. by destruct o. Qed.

Lemma preserves_item {A} (l : list A) i : preserves f (item l i).
Proof. apply preserves_orraise. Qed.

Lemma preserves_modify (g : IRC → IRC) :
  (∀ st, f (g st) = f st) → preserves f (modify g).
Proof. intros H st. apply H. Qed.

Lemma preserves_bind {A C} (m : M A) (k : A → M C) :
  preserves f m → (∀ a, preserves f (k a)) → preserves f (bind m k).
Proof.
  intros Hm Hk st. unfold bind. specialize (Hm st).
  destruct (m st) as [st1 [a| | |]]; simpl in *; try done.
  by rewrite Hk.
Qed.

Lemma preserves_when b (m : M unit) : preserves f m → preserves f (when b m).
Proof. by destruct b. Qed.

Lemma preserves_for_each {A} (l : list A) (body : A → M unit) :
  (∀ a, preserves f (body a)) → preserves f (for_each l body).
Proof.
  intros Hb. induction l as [|x l IH]; [done|].
  simpl. apply preserves_bind; [apply Hb | by intros _].
Qed.

(** The framer and the reader touch the socket, the buffer and the cursor
    only. *)
Hypothesis f_sock_in : ∀ l st, f (set_sock_in l st) = f st.
Hypothesis f_sock_out : ∀ l st, f (set_sock_out l st) = f st.
Hypothesis f_buffer : ∀ l st, f (set_buffer l st) = f st.

Variable rt : Runtime.

Lemma preserves_send msg : preserves f (send rt msg).
Proof.
  intros st. unfold send.
  repeat match goal with
         | |- context [match ?x with _ => _ end] => destruct x
         end; simpl; auto.
Qed.

Lemma preserves_sock_recv : preserves f (sock_recv).
Proof. intros st. unfold sock_recv. destruct (sock_in st); simpl; auto. Qed.

Lemma preserves_recv_text : preserves f (recv_text rt).
Proof.
  intros st. unfold recv_text. destruct (2 <? version_major rt).
  - pose proof (preserves_sock_recv st) as H1.
    destruct (sock_recv st) as [st1 [c| | |]]; simpl in *; try done.
    destruct (decode rt (encoding st1) c) as [s|[]]; simpl; try done.
    pose proof (preserves_sock_recv st1) as H2.
    destruct (sock_recv st1) as [st2 [c2| | |]]; simpl in *; try congruence.
    destruct (decode rt (fallback_encoding st2) c2); simpl; congruence.
  - apply preserves_sock_recv.
Qed.

Lemma preserves_until_newline sdata again :
  preserves f again → preserves f (until_newline sdata again).
Proof.
  intros H. unfold until_newline. destruct (Str.last sdata); [|done].
  by destruct (decide _).
Qed.

Lemma preserves_read_loop fuel sdata : preserves f (read_loop rt fuel sdata).
Proof.
  revert sdata. induction fuel as [|k IH]; intros sdata; simpl;
    apply preserves_until_newline; [done|].
  apply preserves_bind; [apply preserves_get|]. intros closed.
  apply preserves_bind; [apply preserves_recv_text|]. intros text.
  destruct closed; [by apply preserves_until_newline | apply IH].
Qed.

Lemma preserves_mcon_line line : preserves f (mcon_line rt line).
Proof.
  unfold mcon_line. apply preserves_bind.
  - apply preserves_when, preserves_send.
  - intros _. apply preserves_when, preserves_modify. intros st. apply f_buffer.
Qed.

Lemma preserves_mcon : preserves f (mcon rt).
Proof.
  unfold mcon. apply preserves_bind; [apply preserves_get|]. intros n.
  apply preserves_bind; [apply preserves_read_loop|]. intros sdata.
  apply preserves_for_each, preserves_mcon_line.
Qed.

Hypothesis f_index : ∀ i st, f (set_index i st) = f st.




End Frame.

(** ** [send] *)

Lemma send_escapes msg :
  Str.replace (chr LF) "\n" (Str.replace (chr CR) "\r" msg) = escape_crlf msg.
Proof.
  induction msg as [|c msg IH]; [done|].
  rewrite StrFacts.replace_char_cons, StrFacts.replace_char_app, IH.
  cbn [escape_crlf]. f_equal.
  destruct (decide (c = CR)) as [->|Hcr].
  - by rewrite bool_decide_eq_true_2.
  - rewrite bool_decide_eq_false_2 by congruence.
    unfold chr at 2. rewrite StrFacts.replace_char_cons.
    destruct (decide (c = LF)) as [->|Hlf].
    + by rewrite bool_decide_eq_true_2.
    + by rewrite bool_decide_eq_false_2 by congruence.
Qed.


Lemma escape_crlf_id s :
  Str.has_char CR s = false → Str.has_char LF s = false → escape_crlf s = s.
Proof.
  induction s as [|c s IH]; [done|]. simpl.
  destruct (decide (CR = c)); [done|]. destruct (decide (LF = c)); [done|].
  intros H1 H2. destruct (decide (c = CR)); [congruence|].
  destruct (decide (c = LF)); [congruence|]. simpl. by rewrite IH.
Qed.

(** What [send] does, by the encoder's answer. *)
Lemma send_unfold rt msg st :
  send rt msg st =
  let wire := escape_crlf msg +:+ _clrf in
  let data :=
    if 2 <? version_major rt then
      match encode rt (encoding st) wire with
      | CodecErr UnknownEncoding => encode rt (fallback_encoding st) wire
      | r => r
      end
    else
      match encode rt (encoding st) wire with
      | CodecErr Undecodable => encode rt (fallback_encoding st) wire
      | r => r
      end in
  match data with
  | CodecOK d => (set_sock_out (sock_out st ++ [d]) st, Return tt)
  | CodecErr e => (st, Raise (exn_of_codec e))
  end.
Proof. unfold send. by rewrite send_escapes. Qed.

(** With an encoding that maps each character to itself, the bytes written
    are the escaped message and the terminator. *)
Lemma send_latin1 msg st :
  encoding st = "latin-1" →
  send cpython3 msg st
  = (set_sock_out (sock_out st ++ [escape_crlf msg +:+ _clrf]) st, Return tt).
Proof. intros H. rewrite send_unfold. simpl. by rewrite H. Qed.



(** ** The framer: decoding *)

Lemma set_sock_in_same st : set_sock_in (sock_in st) st = st.
Proof. by destruct st. Qed.

Lemma sock_recv_eq st :
  sock_recv st
  = (set_sock_in (tail (sock_in st)) st, Return (default "" (head (sock_in st)))).
Proof.
  unfold sock_recv. destruct (sock_in st) as [|c rest] eqn:H; [|done].
  simpl. by rewrite <- H, set_sock_in_same.
Qed.

(** A chunk that the primary encoding cannot decode is not handed to the
    fallback: the error leaves the framer, although the fallback encoding
    would have decoded the chunk. *)
Lemma undecodable_chunk_escapes :
  decode cpython3 (encoding Ex.garbled) Ex.garbled_chunk = CodecErr Undecodable
  ∧ decode cpython3 (fallback_encoding Ex.garbled) Ex.garbled_chunk
    = CodecOK Ex.garbled_chunk
  ∧ mcon cpython3 Ex.garbled
    = (set_sock_in [] Ex.garbled, Raise UnicodeDecodeError).
Proof. repeat split; by vm_compute. Qed.

(** After a LookupError the socket is read a second time: the chunk whose
    decoding failed is dropped, and the fallback decodes the chunk that
    comes next.  Of the two lines sent to [Ex.unknown_charset] only the
    second is buffered. *)
Lemma unknown_charset_loses_first_chunk :
  decode cpython3 (encoding Ex.unknown_charset) (":srv NOTICE me :one" +:+ _clrf)
  = CodecErr UnknownEncoding
  ∧ mcon cpython3 Ex.unknown_charset
    = (set_buffer [":srv NOTICE me :two"] (set_sock_in [] Ex.unknown_charset),
       Return tt).
Proof. split; by vm_compute. Qed.

(** C8 (amended): on Python 3 the framer turns to the fallback encoding
    only when the primary encoding is unknown to the interpreter, and then
    what the fallback decoding comes to is what the pass comes to: its text,
    or its error.  A chunk that the primary encoding knows but cannot
    decode raises its error out of the framer, and the fallback is not
    asked.  After the unknown encoding the socket is read again, so that the
    text is that of the next chunk, or of the empty read of a closed
    socket. *)
Theorem fallback_only_for_unknown_encoding (rt : Runtime) (st : IRC) :
  2 < version_major rt →
  let chunk := default "" (head (sock_in st)) in
  let rest := tail (sock_in st) in
  recv_text rt st
  = match decode rt (encoding st) chunk with
    | CodecOK s => (set_sock_in rest st, Return s)
    | CodecErr UnknownEncoding =>
        (set_sock_in (tail rest) st,
         match decode rt (fallback_encoding st) (default "" (head rest)) with
         | CodecOK s => Return s
         | CodecErr e => Raise (exn_of_codec e)
         end)
    | CodecErr e => (set_sock_in rest st, Raise (exn_of_codec e))
    end.
Proof.
  intros Hv chunk rest. unfold recv_text.
  rewrite (proj2 (Z.ltb_lt _ _) Hv), sock_recv_eq. fold chunk rest.
  change (encoding (set_sock_in rest st)) with (encoding st).
  destruct (decode rt (encoding st) chunk) as [s|[]]; try done.
  rewrite sock_recv_eq.
  change (sock_in (set_sock_in rest st)) with rest.
  change (fallback_encoding (set_sock_in _ (set_sock_in rest st)))
    with (fallback_encoding st).
  replace (set_sock_in (tail rest) (set_sock_in rest st))
    with (set_sock_in (tail rest) st) by by destruct st.
  by destruct (decode rt (fallback_encoding st) _).
Qed.

Lemma fallback_only_for_unknown_encoding_witness :
  recv_text cpython3 Ex.garbled
  = (set_sock_in [] Ex.garbled, Raise UnicodeDecodeError)
  ∧ recv_text cpython3 Ex.unknown_charset
    = (set_sock_in [] Ex.unknown_charset,
       Return (":srv NOTICE me :two" +:+ _clrf)).
Proof.
  split.
  - apply (fallback_only_for_unknown_encoding cpython3 Ex.garbled).
    reflexivity.
  - apply (fallback_only_for_unknown_encoding cpython3 Ex.unknown_charset).
    reflexivity.
Defined.

(** ** The framer: the read loop never runs short *)

Lemma sock_recv_shrinks st st' c :
  sock_recv st = (st', Return c) →
  (length (sock_in st') <= length (sock_in st))%nat
  ∧ (sock_in st ≠ [] → (length (sock_in st') < length (sock_in st))%nat).
Proof.
  unfold sock_recv. destruct (sock_in st) as [|x rest] eqn:H.
  - intros [= <- _]. rewrite H. split; [done|congruence].
  - intros [= <- _]. simpl. split; [lia | intros _; lia].
Qed.

Lemma sock_recv_returns st : ∃ st' c, sock_recv st = (st', Return c).
Proof. rewrite sock_recv_eq. by eexists _, _. Qed.

Lemma recv_text_shrinks rt st st' s :
  recv_text rt st = (st', Return s) →
  sock_in st ≠ [] → (length (sock_in st') < length (sock_in st))%nat.
Proof.
  unfold recv_text. destruct (2 <? version_major rt).
  - destruct (sock_recv_returns st) as (st1 & c & H1). rewrite H1.
    apply sock_recv_shrinks in H1 as [_ H1].
    destruct (decode rt (encoding st1) c) as [t|[]]; try discriminate.
    + intros [= <- _]. done.
    + destruct (sock_recv_returns st1) as (st2 & c2 & H2). rewrite H2.
      apply sock_recv_shrinks in H2 as [H2 _].
      destruct (decode rt (fallback_encoding st2) c2); [|discriminate].
      intros [= <- _] Hne. specialize (H1 Hne). lia.
  - intros H. by apply sock_recv_shrinks in H as [_ H].
Qed.

Lemma recv_text_outcome rt st :
  (∃ st' s, recv_text rt st = (st', Return s))
  ∨ (∃ st' e, recv_text rt st = (st', Raise e)).
Proof.
  unfold recv_text. destruct (2 <? version_major rt).
  - destruct (sock_recv_returns st) as (st1 & c & ->).
    destruct (decode rt (encoding st1) c) as [t|[]]; eauto.
    destruct (sock_recv_returns st1) as (st2 & c2 & ->).
    destruct (decode rt (fallback_encoding st2) c2); eauto.
  - left. apply sock_recv_returns.
Qed.

(** The fuel [mcon] gives its read loop, one more than the number of
    chunks still to come, is never used up. *)
Lemma read_loop_fuel rt fuel sdata st :
  (length (sock_in st) < fuel)%nat →
  (read_loop rt fuel sdata st).2 ≠ OutOfFuel.
Proof.
  revert sdata st. induction fuel as [|k IH]; intros sdata st Hlen; [lia|].
  cbn [read_loop]. unfold until_newline at 1.
  destruct (Str.last sdata) as [c|]; [|done].
  destruct (decide (c = LF)); [done|].
  rewrite bind_get.
  destruct (recv_text_outcome rt st) as [(st1 & text & Htext)|(st1 & e & Htext)].
  - rewrite (bind_return _ _ _ _ _ Htext).
    destruct (bool_decide (sock_in st = [])) eqn:Hclosed.
    + unfold until_newline. destruct (Str.last _); [|done].
      by destruct (decide _).
    + apply IH. apply bool_decide_eq_false_1 in Hclosed.
      apply recv_text_shrinks in Htext; [lia | done].
  - by rewrite (bind_raise _ _ _ _ _ Htext).
Qed.

Lemma for_each_fuel {A} (l : list A) (body : A → M unit) st :
  (∀ a st, (body a st).2 ≠ OutOfFuel) → (for_each l body st).2 ≠ OutOfFuel.
Proof.
  intros Hb. revert st. induction l as [|x l IH]; intros st; [done|].
  simpl. unfold bind. specialize (Hb x st).
  destruct (body x st) as [st1 [[]| | |]]; simpl in *; [apply IH | done..].
Qed.

Lemma send_fuel rt msg st : (send rt msg st).2 ≠ OutOfFuel.
Proof.
  unfold send.
  repeat match goal with
         | |- context [match ?x with _ => _ end] => destruct x
         end; done.
Qed.

(** [mcon] is total: it returns, raises, or waits for ever on a closed
    socket. *)
Lemma mcon_fuel rt st : (mcon rt st).2 ≠ OutOfFuel.
Proof.
  unfold mcon. rewrite bind_get.
  pose proof (read_loop_fuel rt (S (length (sock_in st))) " " st
                ltac:(lia)) as Hloop.
  unfold bind at 1.
  destruct (read_loop rt _ " " st) as [st1 [sdata| | |]]; try done.
  apply for_each_fuel. intros line st2. unfold mcon_line, bind, when.
  destruct (bool_decide (Str.find line "PING :" = 0)).
  - pose proof (send_fuel rt (Str.replace "PING" "PONG" line) st2) as Hs.
    destruct (send rt _ st2) as [st3 [[]| | |]]; simpl in *; try done.
    by destruct (bool_decide (line ≠ "")).
  - simpl. by destruct (bool_decide (line ≠ "")).
Qed.

(** ** Keep-alive probes *)

(** The probe prefix is found at offset 0 of a probe. *)
Lemma find_probe t : Str.find ("PING :" +:+ t) "PING :" = 0.
Proof.
  unfold Str.find. rewrite !StrFacts.app_cons, StrFacts.app_empty_l.
  cbn. by destruct t.
Qed.

(** Swapping PING for PONG leaves a token without PING as it is. *)
Lemma replace_probe t :
  Str.contains t "PING" = false →
  Str.replace "PING" "PONG" ("PING :" +:+ t) = "PONG :" +:+ t.
Proof.
  intros H%contains_false. unfold Str.replace.
  rewrite !StrFacts.app_cons, StrFacts.app_empty_l.
  cbn. by rewrite (replace_go_absent "PING" "PONG" t 0) by (lia || done).
Qed.

(** The loop of [_recv] only ends on a line without the probe text. *)
Lemma skip_pings_result rt fuel msg st st' r :
  skip_pings rt fuel msg st = (st', Return r) → find r "PING :" = false.
Proof.
  revert msg st. induction fuel as [|k IH]; intros msg st; simpl;
    destruct (find msg "PING :") eqn:Hf; try discriminate;
    try (intros [= _ <-]; done).
  intros (_ & st1 & _ & H)%bind_return_inv.
  apply bind_return_inv in H as ([m|] & st2 & _ & H); [by eapply IH|].
  apply bind_return_inv in H as (_ & st3 & _ & H).
  apply bind_return_inv in H as (_ & st4 & _ & H). by eapply IH.
Qed.

Lemma _recv_result rt fuel st st' r :
  _recv rt fuel st = (st', Return r) → find r "PING :" = false.
Proof.
  unfold _recv. intros H.
  do 7 (apply bind_return_inv in H as (? & ? & _ & H)).
  apply bind_return_inv in H as (msg & ? & Hs & H).
  apply bind_return_inv in H as (? & ? & _ & [= _ <-]).
  by eapply skip_pings_result.
Qed.

(** Not every token comes back unchanged.  In a token that holds the probe
    word each PING is swapped as well; a bare newline at the end of the line
    is escaped by [send]; and for a token that the encoding refuses nothing
    is written. *)
Lemma ping_token_rewritten :
  sock_out (mcon cpython3 Ex.probed).1 = ["PONG :PONGU" +:+ _clrf]
  ∧ sock_out (mcon cpython3 Ex.probed).1 ≠ ["PONG :PINGU" +:+ _clrf]
  ∧ sock_out (mcon cpython3 Ex.probed_lf).1 = ["PONG :abc\n" +:+ _clrf]
  ∧ mcon cpython2 Ex.probed_latin
    = (set_sock_in [] Ex.probed_latin, Raise UnicodeDecodeError).
Proof. repeat split; by vm_compute. Qed.

(** C4 (amended): for a token [t] without the word PING and without CR or
    LF, whose reply can be encoded, the framer answers the line [PING :t]
    by writing [PONG :t] and the terminator at once; the reader never
    returns that line. *)
Theorem ping_answered_and_withheld (rt : Runtime) (t : string) (st : IRC)
    (d : string) :
  Str.contains t "PING" = false →
  Str.has_char CR t = false →
  Str.has_char LF t = false →
  encode rt (encoding st) ("PONG :" +:+ t +:+ _clrf) = CodecOK d →
  mcon_line rt ("PING :" +:+ t) st
  = (set_buffer (buffer st ++ ["PING :" +:+ t])
       (set_sock_out (sock_out st ++ [d]) st), Return tt)
  ∧ ∀ fuel st1 st2 msg,
      _recv rt fuel st1 = (st2, Return msg) → msg ≠ "PING :" +:+ t.
Proof.
  intros Hping Hcr Hlf Henc. split.
  - unfold mcon_line.
    rewrite find_probe, bool_decide_eq_true_2 by done.
    rewrite replace_probe by done. cbn [when].
    assert (send rt ("PONG :" +:+ t) st
            = (set_sock_out (sock_out st ++ [d]) st, Return tt)) as Hsend.
    { rewrite send_unfold, escape_crlf_id.
      - cbv zeta. rewrite StrFacts.app_assoc, Henc.
        by destruct (2 <? version_major rt).
      - by rewrite StrFacts.has_char_app, Hcr.
      - by rewrite StrFacts.has_char_app, Hlf. }
    rewrite (bind_return _ _ _ _ _ Hsend).
    by rewrite bool_decide_eq_true_2.
  - intros fuel st1 st2 msg Hr ->.
    apply _recv_result in Hr.
    assert (find ("PING :" +:+ t) "PING :" = true) as Ht.
    { apply find_true_iff. by rewrite find_probe. }
    congruence.
Qed.

Lemma ping_answered_and_withheld_witness :
  mcon_line cpython3 "PING :irc.example.net" Ex.idle
  = (set_buffer ["PING :irc.example.net"]
       (set_sock_out ["PONG :irc.example.net" +:+ _clrf] Ex.idle), Return tt)
  ∧ ∀ fuel st1 st2 msg,
      _recv cpython3 fuel st1 = (st2, Return msg) →
      msg ≠ "PING :irc.example.net".
Proof.
  apply (ping_answered_and_withheld cpython3 "irc.example.net" Ex.idle
           ("PONG :irc.example.net" +:+ _clrf)); reflexivity.
Defined.

(** ** The reader *)

Lemma skip_pings_clean rt fuel msg :
  find msg "PING :" = false → skip_pings rt fuel msg = ret msg.
Proof. intros H. destruct fuel; simpl; by rewrite H. Qed.

(** With an unread line under the cursor, below the high-water mark, the
    reader returns that line and moves the cursor by one, unless the line
    holds the probe text. *)
Lemma _recv_ready rt fuel st line :
  0 <= index st < 199 →
  buffer st !! Z.to_nat (index st) = Some line →
  find line "PING :" = false →
  _recv rt fuel st = (set_index (index st + 1) st, Return line).
Proof.
  intros [Hlo Hhi] Hline Hclean.
  assert (Z.to_nat (index st) < length (buffer st))%nat as Hlen
    by (eapply lookup_lt_Some; eauto).
  unfold _recv.
  rewrite bind_get, bool_decide_eq_false_2 by lia. cbn [when].
  rewrite bind_ret, bind_get, bool_decide_eq_false_2 by lia. cbn [when].
  rewrite bind_ret, !bind_get. unfold item.
  rewrite py_index_nat, Hline by done. cbn [orraise].
  by rewrite bind_ret, skip_pings_clean, bind_ret, bind_modify.
Qed.

(** C5: the reader drops a user's message that merely contains the probe
    prefix.  The two lines of [Ex.chat] are framed and buffered, none is
    answered as a probe, yet the first call of the reader passes over the
    user's message and returns the line after it. *)
Theorem message_with_probe_text_is_skipped :
  Str.find Ex.probe_talk "PING :" ≠ 0
  ∧ (_recv cpython3 1 Ex.chat).2 = Return Ex.greeting
  ∧ buffer (_recv cpython3 1 Ex.chat).1 = [Ex.probe_talk; Ex.greeting]
  ∧ index (_recv cpython3 1 Ex.chat).1 = 2
  ∧ sock_out (_recv cpython3 1 Ex.chat).1 = [].
Proof. repeat split; by vm_compute. Qed.

(** ** Compaction *)

(** C2: compaction loses lines that were never delivered.  The client of
    [Ex.at_mark] has read its 199 lines one by one and the server sends two
    more, one at a time: the reader refills the buffer with the first, then
    finds the cursor at the mark, empties the buffer and reads again, so
    that it returns the second line and the first is gone.  Of the 201
    lines that reach the client of [Ex.flood] in one chunk, 199 are
    delivered; the 200th call drops the two unread ones and returns the next
    line of the socket. *)
Theorem compaction_drops_unread_lines :
  (index Ex.at_mark = 199
   ∧ length (buffer Ex.at_mark) = 199%nat
   ∧ mcon cpython3 Ex.at_mark
     = (set_buffer (replicate 199 ":old" ++ [":first"])
          (set_sock_in [":second" +:+ _clrf] Ex.at_mark), Return tt)
   ∧ _recv cpython3 1 Ex.at_mark
     = (set_index 1 (set_buffer [":second"] (set_sock_in [] Ex.at_mark)),
        Return ":second"))
  ∧ (deliveries cpython3 199 Ex.flood).1 = replicate 199 (Return ":old")
  ∧ (deliveries cpython3 199 Ex.flood).2 = Ex.full
  ∧ index Ex.full = 199
  ∧ buffer Ex.full !! 199%nat = Some ":next"
  ∧ (_recv cpython3 1 Ex.full).2 = Return ":fresh"
  ∧ buffer (_recv cpython3 1 Ex.full).1 = [":fresh"]
  ∧ index (_recv cpython3 1 Ex.full).1 = 1.
Proof. repeat split; by vm_compute. Qed.

(** Above the high-water mark the reader first refills an exhausted
    buffer, then forgets the buffer and starts again from an empty one. *)
Lemma _recv_at_high_water rt fuel st :
  199 <= index st →
  _recv rt fuel st
  = bind (when (bool_decide (Z.of_nat (length (buffer st)) <= index st))
            (mcon rt))
      (λ _ st1, _recv rt fuel (set_buffer [] (set_index 0 st1))) st.
Proof.
  intros Hfull. unfold _recv at 1. rewrite bind_get.
  apply bind_ext. intros [] st1 Hrefill.
  assert (index st1 = index st) as Hsame.
  { pose proof (preserves_when index
                  (bool_decide (Z.of_nat (length (buffer st)) <= index st))
                  (mcon rt)
                  (preserves_mcon index ltac:(done) ltac:(done) ltac:(done) rt)
                  st) as H.
    by rewrite Hrefill in H. }
  rewrite bind_get, bool_decide_eq_true_2 by lia. cbn [when].
  rewrite bind_assoc. unfold _resetbuffer at 1. rewrite bind_modify.
  set (st0 := set_buffer [] (set_index 0 st1)). unfold _recv.
  rewrite (bind_get (λ st, bool_decide (Z.of_nat (length (buffer st)) <= index st))).
  rewrite bool_decide_eq_true_2 by done. cbn [when].
  apply bind_ext. intros [] st2 Hmcon.
  assert (index st2 = 0) as Hidx.
  { pose proof (preserves_mcon index ltac:(done) ltac:(done) ltac:(done)
                  rt st0) as H.
    by rewrite Hmcon in H. }
  rewrite (bind_get (λ st, bool_decide (199 <= index st))), Hidx.
  by rewrite bool_decide_eq_false_2 by lia.
Qed.

(** With lines still unread above the mark, the reader behaves as on an
    empty buffer with the cursor at 0. *)
Lemma _recv_above_mark_restarts rt fuel st :
  199 <= index st < Z.of_nat (length (buffer st)) →
  _recv rt fuel st = _recv rt fuel (set_buffer [] (set_index 0 st)).
Proof.
  intros [Hfull Hunread]. rewrite _recv_at_high_water by done.
  by rewrite bool_decide_eq_false_2 by lia.
Qed.

(** ** KICK *)

(** The KICK branch never reaches its [return]. *)
Lemma on_kick_never_returns segments st st' ev :
  on_kick segments st ≠ (st', Return ev).
Proof.
  unfold on_kick. intros H.
  do 4 (apply bind_return_inv in H as (? & ? & _ & H)).
  apply bind_return_inv in H as (? & ? & Hraise & _). discriminate.
Qed.

Lemma classify_kick_never_returns rt data st st' ev :
  py_index (Str.words (isspace rt) data) 1 = Some "KICK" →
  classify rt data st ≠ (st', Return ev).
Proof.
  intros Hcmd. unfold classify, item. rewrite Hcmd. cbn [orraise].
  unfold bind at 1, ret at 1.
  repeat (rewrite bool_decide_eq_false_2 by discriminate).
  rewrite bool_decide_eq_true_2 by done. apply on_kick_never_returns.
Qed.

(** C1: on a KICK line the classifier stops at the unbound local variable
    [channel]: the kicked nick stays in the channel's user map, no KICK event
    is returned, and a kick of the client itself fails even earlier, on the
    lookup of a channel named USERS. *)
Theorem kick_raises_and_removes_nothing :
  stream cpython3 1 true true Ex.kick_other
  = (set_index 1 Ex.kick_other, Raise (UnboundLocalError "channel"))
  ∧ stream cpython3 1 true true Ex.kick_self
    = (set_index 1 Ex.kick_self, Raise KeyError).
Proof. split; by vm_compute. Qed.

(** ** NICK *)

Lemma chan_get_app_r {V} (l1 l2 : list (string * V)) k :
  k ∉ l1.*1 → chan_get (l1 ++ l2) k = chan_get l2 k.
Proof.
  induction l1 as [|[k' v'] l1 IH]; [done|]. intros Hk.
  apply not_elem_of_cons in Hk as [Hne Hk]. cbn [app chan_get].
  destruct (decide (k' = k)); [simpl in Hne; congruence | by apply IH].
Qed.

Lemma chan_set_app_r {V} (l1 l2 : list (string * V)) k v :
  k ∉ l1.*1 → chan_set (l1 ++ l2) k v = l1 ++ chan_set l2 k v.
Proof.
  induction l1 as [|[k' v'] l1 IH]; [done|]. intros Hk.
  apply not_elem_of_cons in Hk as [Hne Hk]. cbn [app chan_set].
  destruct (decide (k' = k)); [simpl in Hne; congruence|].
  by rewrite IH.
Qed.

Lemma rename_all_keys old new chans : (rename_all old new chans).*1 = chans.*1.
Proof.
  unfold rename_all. rewrite <- list_fmap_compose.
  by apply list_fmap_ext.
Qed.

Lemma rename_all_app old new l1 l2 :
  rename_all old new (l1 ++ l2) = rename_all old new l1 ++ rename_all old new l2.
Proof. unfold rename_all. apply fmap_app. Qed.

Lemma set_channels_twice c1 c2 st :
  set_channels c2 (set_channels c1 st) = set_channels c2 st.
Proof. done. Qed.

(** One pass of the loop on a channel that lists the nick. *)
Lemma rename_in_listed old ident host new c entry before after st :
  let who := Hostmask old ident host in
  channels st = before ++ (c, entry) :: after →
  c ∉ before.*1 →
  lists_nick old entry →
  rename_in who new c st
  = (set_channels (before ++ (c, renamed old new entry) :: after) st,
     Return tt).
Proof.
  intros who Hchans Hfresh (users & attrs & Husers & Hattrs).
  assert (∀ e st', channels st' = before ++ (c, e) :: after →
            get_entry c st' = (st', Return e)) as Hget.
  { intros e st' H. unfold get_entry. rewrite bind_get, H.
    rewrite chan_get_app_r by done. cbn [chan_get].
    by rewrite decide_True. }
  assert (∀ e e' st', channels st' = before ++ (c, e) :: after →
            put_entry c e' st'
            = (set_channels (before ++ (c, e') :: after) st', Return tt))
    as Hput.
  { intros e e' st' H. unfold put_entry, modify. rewrite H.
    rewrite chan_set_app_r by done. cbn [chan_set].
    by rewrite decide_True. }
  unfold rename_in, get_users.
  rewrite bind_assoc, (bind_return _ _ _ _ _ (Hget _ _ Hchans)).
  rewrite Husers. cbn [orraise]. rewrite bind_ret. cbn [who origin_first]. rewrite bind_ret.
  cbn [users_getitem]. rewrite Hattrs. cbn [orraise]. rewrite bind_ret.
  rewrite bind_assoc, (bind_return _ _ _ _ _ (Hget _ _ Hchans)).
  rewrite Husers. cbn [orraise]. rewrite bind_ret. cbn [who origin_first]. rewrite bind_ret.
  cbn [users_delitem]. rewrite Hattrs. unfold put_users.
  rewrite bind_assoc, (bind_return _ _ _ _ _ (Hget _ _ Hchans)).
  erewrite bind_return; [|by eapply Hput].
  set (entry1 := <["USERS":=VUsers (delete old users)]> entry).
  set (st1 := set_channels (before ++ (c, entry1) :: after) st).
  assert (channels st1 = before ++ (c, entry1) :: after) as Hchans1 by done.
  rewrite bind_assoc, (bind_return _ _ _ _ _ (Hget _ _ Hchans1)).
  unfold entry1 at 1. rewrite lookup_insert_eq. cbn [orraise].
  rewrite bind_ret. cbn [users_setitem]. unfold put_users.
  rewrite (bind_return _ _ _ _ _ (Hget _ _ Hchans1)).
  rewrite (Hput _ _ _ Hchans1). unfold st1. rewrite set_channels_twice.
  unfold renamed. rewrite Husers, Hattrs. unfold entry1.
  by rewrite insert_insert_eq.
Qed.

Lemma rename_loop old ident host new todo : ∀ done st,
  let who := Hostmask old ident host in
  channels st = rename_all old new done ++ todo →
  NoDup (done ++ todo).*1 →
  Forall (λ ce, lists_nick old ce.2) todo →
  for_each todo.*1 (rename_in who new) st
  = (set_channels (rename_all old new (done ++ todo)) st, Return tt).
Proof.
  induction todo as [|[c entry] todo IH]; intros done st who Hchans Hnodup Hall.
  - rewrite app_nil_r in *. simpl. unfold ret. rewrite <- Hchans.
    by destruct st.
  - apply Forall_cons in Hall as [Hc Hall]. cbn [fmap list_fmap for_each fst].
    assert (c ∉ (rename_all old new done).*1) as Hfresh.
    { rewrite rename_all_keys. rewrite fmap_app in Hnodup.
      apply NoDup_app in Hnodup as (_ & Hdis & _).
      intros Hin. apply (Hdis c Hin). simpl. apply list_elem_of_here. }
    erewrite bind_return;
      [|by eapply (rename_in_listed old ident host new c entry _ todo st)].
    rewrite (IH (done ++ [(c, entry)])); try done.
    + by rewrite set_channels_twice, <- app_assoc.
    + simpl. by rewrite rename_all_app, <- app_assoc.
    + by rewrite <- app_assoc.
Qed.

(** Where every channel lists the old nick, the NICK branch renames it in
    each of them, updates the client's own nick when it is the one renamed,
    and returns the event. *)
Lemma on_nick_listed_everywhere segments s0 nick ident host st :
  py_index segments 0 = Some s0 →
  _from_ (Str.replace1 ":" "" s0) = Hostmask nick ident host →
  NoDup (channels st).*1 →
  Forall (λ ce, lists_nick nick ce.2) (channels st) →
  let new_nick := Str.join " " (drop 2 segments) in
  on_nick segments st
  = (set_channels (rename_all nick new_nick (channels st))
       (if bool_decide (current_nick st = nick)
        then set_current_nick new_nick st else st),
     Return (EvNick (Hostmask nick ident host) new_nick)).
Proof.
  intros Hs0 Hwho Hnodup Hall new_nick. unfold on_nick.
  rewrite (item_some _ 0 s0), bind_ret, Hwho, bind_get by done.
  cbn [origin_first]. rewrite bind_ret. fold new_nick.
  set (st1 := if bool_decide (current_nick st = nick)
              then set_current_nick new_nick st else st).
  assert (channels st1 = channels st) as Hsame
    by (unfold st1; by destruct (bool_decide _)).
  assert (when (bool_decide (current_nick st = nick))
            (modify (set_current_nick new_nick)) st = (st1, Return tt)) as Hwhen.
  { unfold st1. by destruct (bool_decide _). }
  rewrite (bind_return _ _ _ _ _ Hwhen), bind_get, Hsame.
  erewrite bind_return; [done|].
  rewrite (rename_loop nick ident host new_nick (channels st) [] st1);
    by rewrite ?Hsame.
Qed.

(** C3: alice, who is in #b but not in #a, renames herself to bob: the loop
    over the channels fails with KeyError at #a, so that #b still lists
    alice and no NICK event is returned. *)
Theorem nick_rename_stops_at_first_channel_without_nick :
  stream cpython3 1 true true Ex.rename
  = (set_index 1 Ex.rename, Raise KeyError).
Proof. by vm_compute. Qed.

(** ** PRIVMSG and CTCP *)

(** Decoding undoes encoding on a message without the delimiter. *)
Lemma ctcp_decode_encode msg :
  Str.has_char SOH msg = false → ctcp_decode (ctcp_encode msg) = msg.
Proof.
  intros H. unfold ctcp_decode, ctcp_encode.
  rewrite !StrFacts.replace_char_app.
  assert (Str.replace (chr SOH) "" (chr SOH) = "") as -> by done.
  rewrite StrFacts.app_empty_l, StrFacts.app_empty_r.
  induction msg as [|c msg IH]; [done|].
  simpl in H. destruct (decide (SOH = c)); [done|].
  rewrite StrFacts.replace_char_cons, bool_decide_eq_false_2 by done.
  by rewrite IH.
Qed.

Lemma classify_privmsg rt data st :
  py_index (Str.words (isspace rt) data) 1 = Some "PRIVMSG" →
  classify rt data st = on_privmsg rt (Str.words (isspace rt) data) st.
Proof.
  intros Hcmd. unfold classify, item. rewrite Hcmd. cbn [orraise].
  rewrite bind_ret.
  repeat (rewrite bool_decide_eq_false_2 by discriminate).
  by rewrite bool_decide_eq_true_2.
Qed.

(** A constant entry of the reply table is sent back as it is. *)
Lemma ctcp_reply_constant rt pre post k s segments who nick st :
  py_index segments 0 = Some k →
  k ∉ pre.*1 →
  int_of_str rt s = None →
  origin_first who = ret nick →
  ctcp_reply rt (pre ++ (k, CtcpStr s) :: post) segments who st
  = notice nick (ctcp_encode s) st.
Proof.
  intros Hseg Hpre Hint Hwho. induction pre as [|[k' v'] pre IH].
  - cbn [app ctcp_reply]. unfold item. rewrite Hseg. cbn [orraise].
    rewrite bind_ret, bool_decide_eq_true_2 by done. cbn [is_none negb andb].
    by rewrite Hint, bind_ret, Hwho, bind_ret.
  - cbn [app ctcp_reply]. unfold item. rewrite Hseg. cbn [orraise].
    rewrite bind_ret.
    apply not_elem_of_cons in Hpre as [Hne Hpre].
    rewrite bool_decide_eq_false_2 by (simpl in Hne; congruence).
    cbn [andb]. by apply IH.
Qed.

(** The reply to the VERSION request does not have the token in front of
    the configured text: the NOTICE carries the configured text alone. *)
Lemma version_reply_has_no_token_prefix :
  calls (stream cpython3 1 true true Ex.asked_version).1
  = [CallNotice "alice" (ctcp_encode "Lurklib 1.0")]
  ∧ CallNotice "alice" (ctcp_encode "VERSION Lurklib 1.0")
    ∉ calls (stream cpython3 1 true true Ex.asked_version).1.
Proof.
  split; [by vm_compute|].
  replace (calls (stream cpython3 1 true true Ex.asked_version).1)
    with [CallNotice "alice" (ctcp_encode "Lurklib 1.0")] by by vm_compute.
  intros [=]%list_elem_of_singleton.
Qed.

(** C6 (amended): with the VERSION request of alice under the cursor and a
    reply table that maps VERSION to the constant "Lurklib 1.0", [stream]
    returns the CTCP event for alice, #chan and VERSION, and has sent alice a
    NOTICE whose body is the CTCP-encoded constant, without the token. *)
Theorem version_request_answered_verbatim (rt : Runtime) (fuel : nat)
    (sel : bool) (st : IRC) (pre post : list (string * ctcp_value)) :
  rt = cpython2 ∨ rt = cpython3 →
  0 <= index st < 199 →
  buffer st !! Z.to_nat (index st) = Some Ex.version_request →
  ctcps st = pre ++ ("VERSION", CtcpStr "Lurklib 1.0") :: post →
  "VERSION" ∉ (fst <$> pre) →
  stream rt fuel true sel st
  = (set_calls (calls st ++ [CallNotice "alice" (ctcp_encode "Lurklib 1.0")])
       (set_index (index st + 1) st),
     Return (Some (EvCtcp (Hostmask "alice" "a" "h") "#chan" "VERSION"))).
Proof.
  intros Hrt Hidx Hline Htable Hpre. unfold stream.
  rewrite bind_ret, (bind_return _ _ _ _ _ (_recv_ready rt fuel st _ Hidx Hline eq_refl)).
  set (st1 := set_index (index st + 1) st).
  assert (Str.words (isspace rt) Ex.version_request
          = [":alice!a@h"; "PRIVMSG"; "#chan"; String ":" (ctcp_encode "VERSION")])
    as Hwords by (by destruct Hrt as [-> | ->]; vm_compute).
  rewrite (bind_return _ _ _
             (set_calls (calls st ++ [CallNotice "alice" (ctcp_encode "Lurklib 1.0")]) st1)
             (EvCtcp (Hostmask "alice" "a" "h") "#chan" "VERSION")); [done|].
  rewrite classify_privmsg by (by rewrite Hwords).
  rewrite Hwords. unfold on_privmsg.
  rewrite (item_some _ 0 ":alice!a@h"), bind_ret by done.
  rewrite (item_some _ 2 "#chan"), bind_ret by done.
  change (_from_ _) with (Hostmask "alice" "a" "h").
  change (trailing 3 _) with (ctcp_encode "VERSION").
  rewrite bool_decide_eq_true_2 by by vm_compute.
  assert (upper rt (ctcp_decode (ctcp_encode "VERSION")) = "VERSION") as ->
    by (by destruct Hrt as [-> | ->]; vm_compute).
  assert (Str.words (isspace rt) "VERSION" = ["VERSION"]) as ->
    by (by destruct Hrt as [-> | ->]; vm_compute).
  rewrite (item_some _ 0 "VERSION"), bind_ret by done.
  rewrite bool_decide_eq_false_2 by discriminate.
  rewrite bind_get. change (ctcps st1) with (ctcps st). rewrite Htable.
  erewrite bind_return; [reflexivity|].
  rewrite (ctcp_reply_constant rt pre post "VERSION" "Lurklib 1.0" _ _ "alice");
    try done.
  by destruct Hrt as [-> | ->]; vm_compute.
Qed.

Lemma version_request_answered_verbatim_witness :
  stream cpython3 1 true true Ex.asked_version
  = (set_calls [CallNotice "alice" (ctcp_encode "Lurklib 1.0")]
       (set_index 1 Ex.asked_version),
     Return (Some (EvCtcp (Hostmask "alice" "a" "h") "#chan" "VERSION"))).
Proof.
  apply (version_request_answered_verbatim cpython3 1 true Ex.asked_version
           [] []).
  - by right.
  - simpl. lia.
  - reflexivity.
  - reflexivity.
  - simpl. apply not_elem_of_nil.
Defined.

(** An ACTION is always classified: the event is returned and nothing is
    sent. *)
Lemma action_returns rt segments s0 target st :
  let rctcp := upper rt (ctcp_decode (trailing 3 segments)) in
  py_index segments 0 = Some s0 →
  py_index segments 2 = Some target →
  Str.find (trailing 3 segments) (chr SOH) = 0 →
  py_index (Str.words (isspace rt) rctcp) 0 = Some "ACTION" →
  on_privmsg rt segments st
  = (st, Return (EvAction (_from_ (Str.replace1 ":" "" s0)) target
                   (Str.join " " (drop 1 (Str.words (isspace rt) rctcp))))).
Proof.
  intros rctcp H0 H2 Hctcp Haction. unfold on_privmsg.
  rewrite (item_some _ 0 s0), bind_ret by done.
  rewrite (item_some _ 2 target), bind_ret by done.
  rewrite bool_decide_eq_true_2 by done.
  rewrite (item_some _ 0 "ACTION"), bind_ret by done.
  by rewrite bool_decide_eq_true_2.
Qed.

(** A CTCP request that is not an ACTION: the table is consulted, then the
    event is returned. *)
Lemma on_privmsg_ctcp rt segments s0 target tok st :
  let rctcp := upper rt (ctcp_decode (trailing 3 segments)) in
  let request := Str.words (isspace rt) rctcp in
  let who := _from_ (Str.replace1 ":" "" s0) in
  py_index segments 0 = Some s0 →
  py_index segments 2 = Some target →
  Str.find (trailing 3 segments) (chr SOH) = 0 →
  py_index request 0 = Some tok →
  tok ≠ "ACTION" →
  on_privmsg rt segments st
  = bind (ctcp_reply rt (ctcps st) request who)
      (λ _, ret (EvCtcp who target rctcp)) st.
Proof.
  intros rctcp request who H0 H2 Hctcp Htok Hne. unfold on_privmsg.
  rewrite (item_some _ 0 s0), bind_ret by done.
  rewrite (item_some _ 2 target), bind_ret by done.
  rewrite bool_decide_eq_true_2 by done. fold rctcp request.
  rewrite (item_some _ 0 tok), bind_ret by done.
  rewrite bool_decide_eq_false_2 by done.
  by rewrite bind_get.
Qed.

(** C10: when the body of a PRIVMSG begins with the CTCP delimiter, the
    classifier works on the decoded body in upper case.  When the first
    word of that text is ACTION it returns the ACTION event, whose text is
    the words after the first, joined by single spaces; otherwise it goes
    through the reply table and, unless that raises, returns the CTCP event,
    whose text is the whole upper-cased body.  A body without a word raises
    IndexError.  The original spelling is in no event. *)
Theorem ctcp_event_text_is_upper_cased (rt : Runtime) (data : string)
    (st : IRC) (s0 target : string) :
  let segments := Str.words (isspace rt) data in
  let rctcp := upper rt (ctcp_decode (trailing 3 segments)) in
  let request := Str.words (isspace rt) rctcp in
  let who := _from_ (Str.replace1 ":" "" s0) in
  py_index segments 0 = Some s0 →
  py_index segments 1 = Some "PRIVMSG" →
  py_index segments 2 = Some target →
  Str.find (trailing 3 segments) (chr SOH) = 0 →
  classify rt data st
  = match py_index request 0 with
    | None => (st, Raise IndexError)
    | Some tok =>
        if bool_decide (tok = "ACTION") then
          (st, Return (EvAction who target (Str.join " " (drop 1 request))))
        else
          match ctcp_reply rt (ctcps st) request who st with
          | (st1, Return _) => (st1, Return (EvCtcp who target rctcp))
          | (st1, Raise e) => (st1, Raise e)
          | (st1, Hang) => (st1, Hang)
          | (st1, OutOfFuel) => (st1, OutOfFuel)
          end
    end.
Proof.
  intros segments rctcp request who H0 H1 H2 Hctcp.
  rewrite classify_privmsg by done. fold segments.
  destruct (py_index request 0) as [tok|] eqn:Htok.
  - case_bool_decide as Haction.
    + subst tok. by apply action_returns.
    + rewrite (on_privmsg_ctcp rt segments s0 target tok) by done.
      fold rctcp request who. unfold bind.
      by destruct (ctcp_reply _ _ _ _ _) as [st1 [[]| | |]].
  - unfold on_privmsg.
    rewrite (item_some _ 0 s0), bind_ret by done.
    rewrite (item_some _ 2 target), bind_ret by done.
    rewrite bool_decide_eq_true_2 by done. fold rctcp. fold request.
    unfold item. by rewrite Htok.
Qed.

Lemma ctcp_event_text_is_upper_cased_witness :
  classify cpython3 Ex.action_line Ex.idle
  = (Ex.idle, Return (EvAction (Hostmask "a" "b" "c") "#ch" "WAVES"))
  ∧ classify cpython3 Ex.version_lower Ex.versioned
    = (set_calls [CallNotice "alice" (ctcp_encode "Lurklib 1.0")] Ex.versioned,
       Return (EvCtcp (Hostmask "alice" "a" "h") "#chan" "VERSION")).
Proof.
  split.
  - rewrite (ctcp_event_text_is_upper_cased cpython3 Ex.action_line Ex.idle
               ":a!b@c" "#ch") by by vm_compute.
    by vm_compute.
  - rewrite (ctcp_event_text_is_upper_cased cpython3 Ex.version_lower
               Ex.versioned ":alice!a@h" "#chan") by by vm_compute.
    by vm_compute.
Defined.

(** ** Error replies *)












(** * Further properties *)

(** ** Relations kept by a method *)

Section Keeps.

Context (R : IRC → IRC → Prop) `{!PreOrder R}.

Lemma keeps_ret {A} (a : A) : keeps R (ret a).
Proof. intros st. simpl. reflexivity. Qed.

Lemma keeps_raise {A} e : keeps R (raise e : M A).
Proof. intros st. simpl. reflexivity. Qed.

Lemma keeps_get {A} (g : IRC → A) : keeps R (get g).
Proof. intros st. simpl. reflexivity. Qed.

Lemma keeps_orraise {A} e (o : option A) : keeps R (orraise e o).
Proof. destruct o; [apply keeps_ret | apply keeps_raise]. Qed.

Lemma keeps_item {A} (l : list A) i : keeps R (item l i).
Proof. apply keeps_orraise. Qed.

Lemma keeps_modify (g : IRC → IRC) : (∀ st, R st (g st)) → keeps R (modify g).
Proof. intros H st. apply H. Qed.

Lemma keeps_bind {A C} (m : M A) (k : A → M C) :
  keeps R m → (∀ a, keeps R (k a)) → keeps R (bind m k).
Proof.
  intros Hm Hk st. unfold bind. specialize (Hm st).
  destruct (m st) as [st1 [a| | |]]; simpl in *; try done.
  etrans; [done | apply Hk].
Qed.

Lemma keeps_when b (m : M unit) : keeps R m → keeps R (when b m).
Proof. destruct b; [done | intros _; apply keeps_ret]. Qed.

Lemma keeps_for_each {A} (l : list A) (body : A → M unit) :
  (∀ a, keeps R (body a)) → keeps R (for_each l body).
Proof.
  intros Hb. induction l as [|x l IH]; [apply keeps_ret|].
  simpl. apply keeps_bind; [apply Hb | by intros _].
Qed.

Lemma keeps_origin_first who : keeps R (origin_first who).
Proof. destruct who as [| []]; first [apply keeps_ret | apply keeps_raise]. Qed.

End Keeps.

(** ** What the framer does to the client *)

Global Instance framed_preorder : PreOrder framed.
Proof.
  split.
  - intros st. repeat split.
    + by exists 0%nat.
    + exists []. by rewrite app_nil_r.
    + exists []. by rewrite app_nil_r.
  - intros st1 st2 st3 ([n1 Hi1] & (new1 & Hb1 & Hn1) & [out1 Ho1] & Hs1)
      ([n2 Hi2] & (new2 & Hb2 & Hn2) & [out2 Ho2] & Hs2).
    repeat split.
    + exists (n1 + n2)%nat. by rewrite Hi2, Hi1, drop_drop.
    + exists (new1 ++ new2). rewrite Hb2, Hb1, <- app_assoc.
      split; [done | by apply Forall_app].
    + exists (out1 ++ out2). by rewrite Ho2, Ho1, <- app_assoc.
    + congruence.
Qed.

Lemma framed_sock_out d st : framed st (set_sock_out (sock_out st ++ d) st).
Proof.
  repeat split.
  - by exists 0%nat.
  - exists []. by rewrite app_nil_r.
  - by exists d.
Qed.

Lemma framed_buffer line st :
  line ≠ "" → framed st (set_buffer (buffer st ++ [line]) st).
Proof.
  intros Hne. repeat split.
  - by exists 0%nat.
  - exists [line]. split; [done | by apply Forall_singleton].
  - exists []. by rewrite app_nil_r.
Qed.

Lemma framed_sock_recv : keeps framed sock_recv.
Proof.
  intros st. rewrite sock_recv_eq. simpl. repeat split.
  - exists 1%nat. by destruct (sock_in st).
  - exists []. by rewrite app_nil_r.
  - exists []. by rewrite app_nil_r.
Qed.

Section Framed.

Variable rt : Runtime.

Lemma framed_send msg : keeps framed (send rt msg).
Proof.
  intros st. unfold send.
  repeat match goal with
         | |- context [match ?x with _ => _ end] => destruct x
         end; simpl; first [apply framed_sock_out | reflexivity].
Qed.

Lemma framed_recv_text : keeps framed (recv_text rt).
Proof.
  intros st. unfold recv_text. destruct (2 <? version_major rt).
  - pose proof (framed_sock_recv st) as H1.
    destruct (sock_recv st) as [st1 [c| | |]]; simpl in *; try done.
    destruct (decode rt (encoding st1) c) as [s|[]]; simpl; try done.
    pose proof (framed_sock_recv st1) as H2.
    destruct (sock_recv st1) as [st2 [c2| | |]]; simpl in *;
      try (by etrans).
    destruct (decode rt (fallback_encoding st2) c2); simpl; by etrans.
  - apply framed_sock_recv.
Qed.

Lemma framed_until_newline sdata again :
  keeps framed again → keeps framed (until_newline sdata again).
Proof.
  intros H. unfold until_newline.
  destruct (Str.last sdata); [|apply keeps_raise, _].
  destruct (decide _); [apply keeps_ret, _ | done].
Qed.

Lemma framed_read_loop fuel sdata : keeps framed (read_loop rt fuel sdata).
Proof.
  revert sdata. induction fuel as [|k IH]; intros sdata; simpl;
    apply framed_until_newline; [intros st; simpl; reflexivity|].
  apply keeps_bind; [apply _ | apply keeps_get, _ |]. intros closed.
  apply keeps_bind; [apply _ | apply framed_recv_text |]. intros text.
  destruct closed; [|apply IH].
  apply framed_until_newline. intros st. simpl. reflexivity.
Qed.

Lemma framed_mcon_line line : keeps framed (mcon_line rt line).
Proof.
  unfold mcon_line. apply keeps_bind; [apply _ | |].
  - apply keeps_when; [apply _ | apply framed_send].
  - intros _. destruct (decide (line = "")) as [->|Hne].
    + rewrite bool_decide_eq_false_2 by (intros H; by apply H).
      apply keeps_ret, _.
    + rewrite bool_decide_eq_true_2 by done.
      apply keeps_modify. intros st. by apply framed_buffer.
Qed.

Lemma framed_mcon : keeps framed (mcon rt).
Proof.
  unfold mcon. apply keeps_bind; [apply _ | apply keeps_get, _ |]. intros n.
  apply keeps_bind; [apply _ | apply framed_read_loop |]. intros sdata.
  apply keeps_for_each; [apply _ | apply framed_mcon_line].
Qed.

End Framed.

(** X1: the framer only takes chunks from the front of the socket, only
    appends lines to the buffer, none of them empty, only appends to what
    was sent, and leaves the cursor and every other attribute alone,
    whether it returns, raises or hangs. *)
Theorem mcon_only_appends (rt : Runtime) (st : IRC) :
  framed st (mcon rt st).1.
Proof. apply framed_mcon. Qed.

(** ** Reads and lines *)

Lemma recv_text_chunk rt st chunk rest s :
  sock_in st = chunk :: rest →
  chunk_text rt st chunk = CodecOK s →
  recv_text rt st = (set_sock_in rest st, Return s).
Proof.
  intros Hin Htext. unfold recv_text, chunk_text in *.
  rewrite sock_recv_eq, Hin. simpl.
  destruct (2 <? version_major rt); [by rewrite Htext | congruence].
Qed.

(** One pass of the read loop on a socket that still holds a chunk. *)
Lemma read_loop_pass rt fuel sdata st chunk rest s c :
  sock_in st = chunk :: rest →
  chunk_text rt st chunk = CodecOK s →
  Str.last sdata = Some c → c ≠ LF →
  read_loop rt (S fuel) sdata st
  = read_loop rt fuel ((if decide (sdata = " ") then "" else sdata) +:+ s)
      (set_sock_in rest st).
Proof.
  intros Hin Htext Hlast Hc. cbn [read_loop]. unfold until_newline at 1.
  rewrite Hlast. destruct (decide (c = LF)); [done|].
  rewrite bind_get, Hin. rewrite bool_decide_eq_false_2 by done.
  by rewrite (bind_return _ _ _ _ _ (recv_text_chunk rt st chunk rest s Hin Htext)).
Qed.

Lemma last_none s : Str.last s = None → s = "".
Proof.
  induction s as [|c s IH]; [done|]. cbn [Str.last].
  destruct s; [done|]. intros H. by specialize (IH H).
Qed.

Lemma last_app_nonempty (a b : string) :
  b ≠ "" → Str.last (a +:+ b) = Str.last b.
Proof.
  intros Hb. induction a as [|x a IH]; [done|].
  rewrite StrFacts.app_cons. cbn [Str.last]. rewrite IH.
  destruct (a +:+ b) eqn:E; [|done].
  destruct a; [by rewrite StrFacts.app_empty_l in E | done].
Qed.

(** X2: framing does not depend on where a read ends inside a line.  When
    the text of the first chunk is not empty, is not a single space and does
    not end with a newline, the framer does the same on two chunks as on
    the one chunk made of both. *)
Theorem mcon_joins_split_chunk (rt : Runtime) (st : IRC)
    (c1 c2 s1 s2 : string) (rest : list string) :
  chunk_text rt st c1 = CodecOK s1 →
  chunk_text rt st c2 = CodecOK s2 →
  chunk_text rt st (c1 +:+ c2) = CodecOK (s1 +:+ s2) →
  s1 ≠ "" → s1 ≠ " " → Str.last s1 ≠ Some LF →
  mcon rt (set_sock_in (c1 :: c2 :: rest) st)
  = mcon rt (set_sock_in ((c1 +:+ c2) :: rest) st).
Proof.
  intros H1 H2 H12 Hne Hsp Hlf. unfold mcon. rewrite !bind_get.
  cbn [sock_in set_sock_in length].
  assert (Str.last " " = Some " "%char) as Hsp0 by done.
  assert (" "%char ≠ LF) as Hsp1 by done.
  destruct (Str.last s1) as [c|] eqn:Hlast;
    [|by apply last_none in Hlast].
  assert (c ≠ LF) as Hc by congruence.
  assert (read_loop rt (S (S (S (length rest)))) " "
            (set_sock_in (c1 :: c2 :: rest) st)
          = read_loop rt (S (S (length rest))) " "
              (set_sock_in ((c1 +:+ c2) :: rest) st)) as Hloop.
  { rewrite (read_loop_pass rt _ " " _ c1 (c2 :: rest) s1 " "%char); try done.
    rewrite (read_loop_pass rt _ " " _ (c1 +:+ c2) rest (s1 +:+ s2) " "%char);
      try done.
    rewrite decide_True by done. rewrite !StrFacts.app_empty_l.
    rewrite (read_loop_pass rt _ s1 _ c2 rest s2 c); try done.
    by rewrite decide_False by done. }
  unfold bind. by rewrite Hloop.
Qed.

Lemma mcon_joins_split_chunk_witness :
  mcon cpython3 (set_sock_in [":srv NOTICE"; " me :hi" +:+ _clrf] Ex.idle)
  = mcon cpython3 (set_sock_in [":srv NOTICE" +:+ " me :hi" +:+ _clrf] Ex.idle).
Proof.
  apply (mcon_joins_split_chunk cpython3 Ex.idle ":srv NOTICE"
           (" me :hi" +:+ _clrf) ":srv NOTICE" (" me :hi" +:+ _clrf) []);
    by vm_compute.
Defined.

(** ** The cursor *)

Lemma framed_index st st' : framed st st' → index st' = index st.
Proof. intros (_ & _ & _ & [=]). done. Qed.

Lemma framed_lookup st st' i line :
  framed st st' → buffer st !! i = Some line → buffer st' !! i = Some line.
Proof.
  intros (_ & (new & -> & _) & _) H. by apply lookup_app_l_Some.
Qed.

(** The loop of the reader keeps the line it holds under the cursor. *)
Lemma skip_pings_cursor rt fuel msg st st' r :
  0 <= index st →
  buffer st !! Z.to_nat (index st) = Some msg →
  skip_pings rt fuel msg st = (st', Return r) →
  0 <= index st' ∧ buffer st' !! Z.to_nat (index st') = Some r.
Proof.
  revert msg st. induction fuel as [|k IH]; intros msg st Hidx Hmsg; simpl;
    destruct (find msg "PING :") eqn:Hf; try discriminate;
    try (by intros [= <- <-]).
  rewrite bind_modify, bind_get. cbn [index set_index buffer].
  rewrite py_index_nat by lia.
  destruct (buffer st !! Z.to_nat (index st + 1)) as [m|] eqn:Hnext.
  - apply IH; simpl; [lia | done].
  - intros ([] & st2 & Hmcon & H)%bind_return_inv.
    rewrite bind_modify in H.
    pose proof (framed_mcon rt (set_index (index st + 1) st)) as Hfr.
    rewrite Hmcon in Hfr. simpl in Hfr.
    pose proof (framed_index _ _ Hfr) as Hi. simpl in Hi.
    eapply IH; [| |exact H]; simpl; [lia|].
    replace (index st2 - 1) with (index st) by lia.
    by eapply framed_lookup.
Qed.

(** X3: started with a cursor that is not negative, the reader returns the
    line just before the place where it leaves the cursor, and leaves the
    cursor inside the buffer. *)
Theorem recv_returns_line_before_cursor (rt : Runtime) (fuel : nat)
    (st st' : IRC) (msg : string) :
  0 <= index st →
  _recv rt fuel st = (st', Return msg) →
  1 <= index st' <= Z.of_nat (length (buffer st'))
  ∧ buffer st' !! Z.to_nat (index st' - 1) = Some msg.
Proof.
  intros Hidx H. unfold _recv in H.
  rewrite bind_get in H.
  apply bind_return_inv in H as ([] & st1 & Hrefill & H).
  assert (index st1 = index st) as Hi1.
  { pose proof (preserves_when index
                  (bool_decide (Z.of_nat (length (buffer st)) <= index st))
                  (mcon rt)
                  (preserves_mcon index ltac:(done) ltac:(done) ltac:(done) rt)
                  st) as Hp.
    by rewrite Hrefill in Hp. }
  rewrite bind_get in H.
  apply bind_return_inv in H as ([] & st2 & Hreset & H).
  assert (0 <= index st2) as Hi2.
  { destruct (bool_decide (199 <= index st1)); cbn [when] in Hreset.
    - unfold _resetbuffer in Hreset. rewrite bind_modify in Hreset.
      pose proof (preserves_mcon index ltac:(done) ltac:(done) ltac:(done)
                    rt (set_buffer [] (set_index 0 st1))) as Hp.
      rewrite Hreset in Hp. simpl in Hp. lia.
    - injection Hreset as <-. lia. }
  rewrite !bind_get in H.
  apply bind_return_inv in H as (m & st3 & [Hm ->]%item_return_inv & H).
  rewrite py_index_nat in Hm by done.
  apply bind_return_inv in H as (r & st4 & Hskip & H).
  rewrite bind_modify in H. injection H as <- <-.
  apply skip_pings_cursor in Hskip as [Hi4 Hr]; [|done..].
  simpl. replace (index st4 + 1 - 1) with (index st4) by lia.
  split; [|done]. apply lookup_lt_Some in Hr. lia.
Qed.

Lemma recv_returns_line_before_cursor_witness :
  1 <= index (_recv cpython3 1 Ex.chat).1
    <= Z.of_nat (length (buffer (_recv cpython3 1 Ex.chat).1))
  ∧ buffer (_recv cpython3 1 Ex.chat).1
      !! Z.to_nat (index (_recv cpython3 1 Ex.chat).1 - 1)
    = Some Ex.greeting.
Proof.
  apply (recv_returns_line_before_cursor cpython3 1 Ex.chat
           (_recv cpython3 1 Ex.chat).1 Ex.greeting);
    by vm_compute.
Defined.

Lemma set_index_same st : set_index (index st) st = st.
Proof. by destruct st. Qed.

(** X4: lines are delivered in the order of the buffer.  Below the
    high-water mark, [n] calls of the reader on [n] unread lines without the
    probe text return these lines one after the other and move the cursor
    by [n]; nothing else changes. *)
Theorem deliveries_in_buffer_order (rt : Runtime) (n : nat) (st : IRC) :
  0 <= index st →
  index st + Z.of_nat n <= 199 →
  index st + Z.of_nat n <= Z.of_nat (length (buffer st)) →
  Forall (λ line, find line "PING :" = false)
    (take n (drop (Z.to_nat (index st)) (buffer st))) →
  deliveries rt n st
  = (Return <$> take n (drop (Z.to_nat (index st)) (buffer st)),
     set_index (index st + Z.of_nat n) st).
Proof.
  revert st. induction n as [|k IH]; intros st Hlo Hhi Hlen Hclean.
  - simpl. by rewrite Z.add_0_r, set_index_same.
  - destruct (buffer st !! Z.to_nat (index st)) as [line|] eqn:Hline.
    2: { apply lookup_ge_None in Hline. lia. }
    rewrite (drop_S _ _ _ Hline) in Hclean |- *. cbn [take] in Hclean |- *.
    apply Forall_cons in Hclean as [Hc Hclean].
    cbn [deliveries].
    rewrite (_recv_ready rt 1 st line) by (done || lia).
    assert (Z.to_nat (index st + 1) = S (Z.to_nat (index st))) as Hnext by lia.
    rewrite (IH (set_index (index st + 1) st)); cbn [index set_index buffer];
      rewrite ?Hnext; try done; try lia.
    cbn [fmap list_fmap]. f_equal. unfold set_index. simpl. f_equal. lia.
Qed.

Lemma deliveries_in_buffer_order_witness :
  deliveries cpython3 2 (set_buffer [Ex.greeting; Ex.nick_in_use_line] Ex.idle)
  = ([Return Ex.greeting; Return Ex.nick_in_use_line],
     set_index 2 (set_buffer [Ex.greeting; Ex.nick_in_use_line] Ex.idle)).
Proof.
  apply (deliveries_in_buffer_order cpython3 2
           (set_buffer [Ex.greeting; Ex.nick_in_use_line] Ex.idle)).
  - by vm_compute.
  - by vm_compute.
  - by vm_compute.
  - repeat constructor.
Defined.

(** ** A closed socket *)

Lemma recv_text_closed rt st s :
  sock_in st = [] →
  chunk_text rt st "" = CodecOK s →
  recv_text rt st = (st, Return s).
Proof.
  intros Hin Htext. unfold recv_text, chunk_text in *.
  rewrite sock_recv_eq, Hin. simpl. rewrite <- Hin, set_sock_in_same.
  destruct (2 <? version_major rt); [by rewrite Htext | congruence].
Qed.

Lemma mcon_closed rt st :
  sock_in st = [] →
  chunk_text rt st "" = CodecOK "" →
  mcon rt st = (st, Raise IndexError).
Proof.
  intros Hin Htext. unfold mcon. rewrite bind_get, Hin.
  cbn [length read_loop]. unfold bind at 1, until_newline at 1.
  cbn [Str.last]. rewrite decide_False by done.
  rewrite bind_get, Hin, bool_decide_eq_true_2 by done.
  by rewrite (bind_return _ _ _ _ _ (recv_text_closed rt st "" Hin Htext)).
Qed.

(** X5: once the peer has closed the connection and every buffered line
    has been read, the reader raises IndexError and changes nothing: the
    end of the connection is not told apart from a bad index. *)
Theorem recv_on_closed_socket_raises (rt : Runtime) (fuel : nat) (st : IRC) :
  sock_in st = [] →
  Z.of_nat (length (buffer st)) <= index st →
  chunk_text rt st "" = CodecOK "" →
  _recv rt fuel st = (st, Raise IndexError).
Proof.
  intros Hin Hread Htext. unfold _recv.
  rewrite bind_get, bool_decide_eq_true_2 by done. cbn [when].
  by rewrite (bind_raise _ _ _ _ _ (mcon_closed rt st Hin Htext)).
Qed.

Lemma recv_on_closed_socket_raises_witness :
  _recv cpython3 1 Ex.idle = (Ex.idle, Raise IndexError).
Proof.
  apply (recv_on_closed_socket_raises cpython3 1 Ex.idle); by vm_compute.
Defined.

(** X6: when the peer closes the connection in the middle of a line, the
    read loop of the framer never ends: each pass reads the empty string and
    finds the same unfinished line. *)
Theorem mcon_spins_on_unfinished_line (rt : Runtime) (st : IRC)
    (chunk s : string) :
  sock_in st = [chunk] →
  chunk_text rt st chunk = CodecOK s →
  chunk_text rt st "" = CodecOK "" →
  s ≠ "" → s ≠ " " → Str.last s ≠ Some LF →
  mcon rt st = (set_sock_in [] st, Hang).
Proof.
  intros Hin Htext Hempty Hne Hsp Hlf. unfold mcon. rewrite bind_get, Hin.
  cbn [length].
  destruct (Str.last s) as [c|] eqn:Hlast; [|by apply last_none in Hlast].
  assert (c ≠ LF) as Hc by congruence.
  assert (read_loop rt 2 " " st = (set_sock_in [] st, Hang)) as Hloop.
  { rewrite (read_loop_pass rt 1 " " st chunk [] s " "%char); try done.
    rewrite decide_True by done. rewrite StrFacts.app_empty_l.
    cbn [read_loop]. unfold until_newline at 1. rewrite Hlast.
    rewrite decide_False by done.
    rewrite bind_get. cbn [sock_in set_sock_in].
    rewrite bool_decide_eq_true_2 by done.
    rewrite (bind_return _ _ _ _ _
               (recv_text_closed rt (set_sock_in [] st) "" eq_refl Hempty)).
    rewrite decide_False by done. rewrite StrFacts.app_empty_r.
    unfold until_newline. rewrite Hlast. by rewrite decide_False by done. }
  unfold bind. by rewrite Hloop.
Qed.

Lemma mcon_spins_on_unfinished_line_witness :
  mcon cpython3 (set_sock_in [":srv NOTICE"] Ex.idle)
  = (set_sock_in [] (set_sock_in [":srv NOTICE"] Ex.idle), Hang).
Proof.
  apply (mcon_spins_on_unfinished_line cpython3
           (set_sock_in [":srv NOTICE"] Ex.idle) ":srv NOTICE" ":srv NOTICE");
    by vm_compute.
Defined.

(** ** The identity parser *)

Lemma split1_char_empty c : Str.split1 (chr c) "" = [""].
Proof. done. Qed.

Lemma split1_char_cons c x s :
  Str.split1 (chr c) (String x s)
  = if bool_decide (c = x) then [""; s]
    else Str.cons_head x (Str.split1 (chr c) s).
Proof.
  cbn [Str.split1]. rewrite StrFacts.prefix_char.
  by destruct (bool_decide (c = x)).
Qed.

Lemma has_char_cons c x s :
  Str.has_char c (String x s) = bool_decide (c = x) || Str.has_char c s.
Proof.
  simpl. destruct (decide (c = x));
    [by rewrite bool_decide_eq_true_2 | by rewrite bool_decide_eq_false_2].
Qed.

(** The string is cut at the first separator, if there is one. *)
Lemma split1_char c s :
  (Str.has_char c s = false ∧ Str.split1 (chr c) s = [s])
  ∨ ∃ a b, s = a +:+ String c b ∧ Str.has_char c a = false
           ∧ Str.split1 (chr c) s = [a; b].
Proof.
  induction s as [|x s IH]; [by left|].
  rewrite split1_char_cons, has_char_cons.
  destruct (bool_decide (c = x)) eqn:Hcx.
  - right. exists "", s. apply bool_decide_eq_true_1 in Hcx as ->.
    by rewrite StrFacts.app_empty_l.
  - destruct IH as [[Hno ->]|(a & b & -> & Hno & ->)].
    + by left.
    + right. exists (String x a), b.
      by rewrite has_char_cons, Hcx, StrFacts.app_cons.
Qed.

Lemma split1_char_at c a b :
  Str.has_char c a = false → Str.split1 (chr c) (a +:+ String c b) = [a; b].
Proof.
  induction a as [|x a IH]; intros Hno.
  - rewrite StrFacts.app_empty_l, split1_char_cons.
    by rewrite bool_decide_eq_true_2.
  - rewrite has_char_cons in Hno. apply orb_false_iff in Hno as [Hx Hno].
    rewrite StrFacts.app_cons, split1_char_cons, Hx, IH; done.
Qed.

(** X7: a well-formed hostmask is parsed into its three parts: for a nick
    without [!] and [@] and a user name without [@], the text
    nick!user@host gives the tuple (nick, user, host), whatever the host
    is. *)
Theorem from_parses_hostmask (nick ident host : string) :
  Str.has_char "!" nick = false →
  Str.has_char "@" nick = false →
  Str.has_char "@" ident = false →
  _from_ (nick +:+ "!" +:+ ident +:+ "@" +:+ host) = Hostmask nick ident host.
Proof.
  intros Hbang Hat Hat'. unfold _from_.
  change ("@" +:+ host) with (String "@" host).
  change ("!" +:+ ident +:+ String "@" host)
    with (String "!" (ident +:+ String "@" host)).
  rewrite <- (StrFacts.app_cons "!" ident), <- StrFacts.app_assoc.
  change "@" with (chr "@"). change "!" with (chr "!").
  rewrite split1_char_at.
  - cbn [lookup list_lookup]. by rewrite split1_char_at.
  - by rewrite StrFacts.has_char_app, Hat, has_char_cons, Hat'.
Qed.

Lemma from_parses_hostmask_witness :
  _from_ ("alice" +:+ "!" +:+ "a" +:+ "@" +:+ "host.example")
  = Hostmask "alice" "a" "host.example".
Proof. apply (from_parses_hostmask "alice" "a" "host.example"); reflexivity. Defined.

(** X8: the identity parser loses nothing.  A tuple it returns spells the
    argument as nick!user@host, the nick holding neither [!] nor [@] and
    the user name no [@]; otherwise it returns the argument itself. *)
Theorem from_keeps_the_text (who : string) :
  match _from_ who with
  | Hostmask nick ident host =>
      who = nick +:+ "!" +:+ ident +:+ "@" +:+ host
      ∧ Str.has_char "!" nick = false
      ∧ Str.has_char "@" nick = false
      ∧ Str.has_char "@" ident = false
  | Opaque text => text = who
  end.
Proof.
  unfold _from_. change (Str.split1 "@") with (Str.split1 (chr "@")).
  change (Str.split1 "!") with (Str.split1 (chr "!")).
  destruct (split1_char "@" who) as [[_ ->]|(left & host & -> & Hat & ->)];
    cbn [lookup list_lookup].
  - by destruct (Str.split1 (chr "!") who) as [|? [|? ?]].
  - destruct (split1_char "!" left) as [[_ ->]|(nick & ident & -> & Hbang & ->)];
      cbn [lookup list_lookup]; [done|].
    rewrite StrFacts.has_char_app, has_char_cons in Hat.
    apply orb_false_iff in Hat as [Hn Hi]. apply orb_false_iff in Hi as [_ Hi].
    repeat split; try done.
    by rewrite StrFacts.app_assoc.
Qed.

(** ** CTCP *)

Lemma ctcp_decode_clean msg : Str.has_char SOH (ctcp_decode msg) = false.
Proof.
  unfold ctcp_decode. induction msg as [|c msg IH]; [done|].
  rewrite StrFacts.replace_char_cons.
  destruct (decide (SOH = c)) as [Heq|Hne].
  - subst c. rewrite bool_decide_eq_true_2 by done.
    by rewrite StrFacts.app_empty_l.
  - rewrite bool_decide_eq_false_2 by done.
    change (chr c) with (String c "").
    rewrite StrFacts.app_cons, StrFacts.app_empty_l.
    by rewrite has_char_cons, bool_decide_eq_false_2, IH.
Qed.

Lemma ctcp_decode_id msg :
  Str.has_char SOH msg = false → ctcp_decode msg = msg.
Proof.
  unfold ctcp_decode. induction msg as [|c msg IH]; [done|].
  rewrite has_char_cons. intros [Hc Hmsg]%orb_false_iff.
  rewrite StrFacts.replace_char_cons, Hc, IH by done. done.
Qed.

(** X9: decoding strips every delimiter and nothing else.  The decoded text
    holds no delimiter; a text without delimiter is its own decoding; and
    decoding an encoded message gives the decoding of the message, hence the
    message itself when it holds no delimiter. *)
Theorem ctcp_decode_strips_delimiters (msg : string) :
  Str.has_char SOH (ctcp_decode msg) = false
  ∧ ctcp_decode (ctcp_encode msg) = ctcp_decode msg
  ∧ (Str.has_char SOH msg = false → ctcp_decode (ctcp_encode msg) = msg).
Proof.
  split; [apply ctcp_decode_clean|].
  assert (ctcp_decode (ctcp_encode msg) = ctcp_decode msg) as Heq.
  { unfold ctcp_decode, ctcp_encode. rewrite !StrFacts.replace_char_app.
    assert (Str.replace (chr SOH) "" (chr SOH) = "") as -> by done.
    by rewrite StrFacts.app_empty_l, StrFacts.app_empty_r. }
  split; [done|]. intros Hclean. by rewrite Heq, ctcp_decode_id.
Qed.

Lemma ctcp_decode_strips_delimiters_witness :
  ctcp_decode (ctcp_encode "VERSION") = "VERSION".
Proof.
  destruct (ctcp_decode_strips_delimiters "VERSION") as (_ & _ & H).
  apply H. reflexivity.
Defined.

(** No entry of the table is for the token: the loop does nothing. *)
Lemma ctcp_reply_no_key rt table segments who seg0 st :
  py_index segments 0 = Some seg0 →
  seg0 ∉ table.*1 →
  ctcp_reply rt table segments who st = (st, Return tt).
Proof.
  intros Hseg Hno. induction table as [|[k v] table IH]; [done|].
  apply not_elem_of_cons in Hno as [Hne Hno].
  cbn [ctcp_reply]. rewrite (item_some _ 0 seg0), bind_ret by done.
  rewrite bool_decide_eq_false_2 by (simpl in Hne; congruence).
  by apply IH.
Qed.

(** The loop over the reply table finds the entry of the token. *)
Lemma ctcp_reply_is_lookup_aux rt (table : list (string * ctcp_value))
    segments who seg0 st :
  NoDup table.*1 →
  py_index segments 0 = Some seg0 →
  ctcp_reply rt table segments who st
  = match chan_get table seg0 with
    | Some value => reply_to rt seg0 value segments who st
    | None => (st, Return tt)
    end.
Proof.
  intros Hnodup Hseg. induction table as [|[k v] table IH]; [done|].
  apply NoDup_cons in Hnodup as [Hk Hnodup].
  cbn [ctcp_reply chan_get]. rewrite (item_some _ 0 seg0), bind_ret by done.
  destruct (decide (k = seg0)) as [->|Hne].
  - rewrite bool_decide_eq_true_2 by done.
    destruct v as [|result|n|s]; cbn [is_none negb andb reply_to].
    + by apply ctcp_reply_no_key with seg0.
    + by rewrite bind_ret.
    + unfold item. destruct (py_index segments n); [|done].
      cbn [orraise]. by rewrite !bind_ret.
    + destruct (int_of_str rt s) as [n|]; [|by rewrite bind_ret].
      unfold item. destruct (py_index segments n); [|done].
      cbn [orraise]. by rewrite !bind_ret.
  - rewrite bool_decide_eq_false_2 by done. by apply IH.
Qed.

(** X10: the loop over the reply table is a lookup.  In a table without
    repeated keys the reply to a request is decided by the entry under the
    first word of the request, wherever that entry stands in the table. *)
Theorem ctcp_reply_is_lookup (rt : Runtime)
    (table : list (string * ctcp_value)) (segments : list string)
    (who : origin) (seg0 : string) (st : IRC) :
  NoDup table.*1 →
  py_index segments 0 = Some seg0 →
  ctcp_reply rt table segments who st
  = match chan_get table seg0 with
    | Some value => reply_to rt seg0 value segments who st
    | None => (st, Return tt)
    end.
Proof. apply ctcp_reply_is_lookup_aux. Qed.

Lemma ctcp_reply_is_lookup_witness :
  ctcp_reply cpython3
    [("VERSION", CtcpStr "Lurklib 1.0"); ("PING", CtcpInt 1)]
    ["PING"; "123"] (Hostmask "alice" "a" "h") Ex.idle
  = reply_to cpython3 "PING" (CtcpInt 1) ["PING"; "123"]
      (Hostmask "alice" "a" "h") Ex.idle.
Proof.
  apply (ctcp_reply_is_lookup cpython3
           [("VERSION", CtcpStr "Lurklib 1.0"); ("PING", CtcpInt 1)]
           ["PING"; "123"] (Hostmask "alice" "a" "h") "PING" Ex.idle).
  - apply (bool_decide_unpack _). by vm_compute.
  - reflexivity.
Defined.

(** X11: a CTCP request without the word that an echo entry of the table
    points at makes the classifier raise IndexError: nothing is sent back
    and no event is returned.  With the default table this is any bare PING
    request. *)
Theorem ctcp_echo_without_argument_raises (rt : Runtime) (data : string)
    (st : IRC) (s0 target tok : string) (n : Z) :
  let segments := Str.words (isspace rt) data in
  let request :=
    Str.words (isspace rt) (upper rt (ctcp_decode (trailing 3 segments))) in
  py_index segments 0 = Some s0 →
  py_index segments 1 = Some "PRIVMSG" →
  py_index segments 2 = Some target →
  Str.find (trailing 3 segments) (chr SOH) = 0 →
  py_index request 0 = Some tok →
  tok ≠ "ACTION" →
  NoDup (ctcps st).*1 →
  chan_get (ctcps st) tok = Some (CtcpInt n) →
  py_index request n = None →
  classify rt data st = (st, Raise IndexError).
Proof.
  intros segments request H0 H1 H2 Hctcp Htok Hne Hnodup Hentry Hout.
  rewrite classify_privmsg by done. fold segments.
  rewrite (on_privmsg_ctcp rt segments s0 target tok) by done.
  fold request. erewrite bind_raise; [done|].
  rewrite (ctcp_reply_is_lookup_aux rt _ _ _ tok) by done.
  rewrite Hentry. cbn [reply_to]. unfold item. by rewrite Hout.
Qed.

Lemma ctcp_echo_without_argument_raises_witness :
  classify cpython3 Eg.ping_bare Eg.defaults = (Eg.defaults, Raise IndexError).
Proof.
  apply (ctcp_echo_without_argument_raises cpython3 Eg.ping_bare Eg.defaults
           ":eve!e@h" "me" "PING" 1); try by vm_compute.
  apply (bool_decide_unpack _). by vm_compute.
Defined.

(** X12: a CTCP request whose first word, in upper case, is no key of the
    reply table is not answered: the CTCP event is returned and the client
    is as it was. *)
Theorem ctcp_unknown_token_gets_no_reply (rt : Runtime) (data : string)
    (st : IRC) (s0 target tok : string) :
  let segments := Str.words (isspace rt) data in
  let rctcp := upper rt (ctcp_decode (trailing 3 segments)) in
  py_index segments 0 = Some s0 →
  py_index segments 1 = Some "PRIVMSG" →
  py_index segments 2 = Some target →
  Str.find (trailing 3 segments) (chr SOH) = 0 →
  py_index (Str.words (isspace rt) rctcp) 0 = Some tok →
  tok ≠ "ACTION" →
  tok ∉ (ctcps st).*1 →
  classify rt data st
  = (st, Return (EvCtcp (_from_ (Str.replace1 ":" "" s0)) target rctcp)).
Proof.
  intros segments rctcp H0 H1 H2 Hctcp Htok Hne Hno.
  rewrite classify_privmsg by done. fold segments.
  rewrite (on_privmsg_ctcp rt segments s0 target tok) by done.
  fold rctcp. erewrite bind_return; [done|].
  by apply ctcp_reply_no_key with tok.
Qed.

Lemma ctcp_unknown_token_gets_no_reply_witness :
  classify cpython3 Eg.finger Eg.defaults
  = (Eg.defaults, Return (EvCtcp (Hostmask "eve" "e" "h") "me" "FINGER")).
Proof.
  apply (ctcp_unknown_token_gets_no_reply cpython3 Eg.finger Eg.defaults
           ":eve!e@h" "me" "FINGER"); try by vm_compute.
  apply (bool_decide_unpack _). by vm_compute.
Defined.



(** ** What the classifier leaves alone *)

Lemma chan_set_keys {V} (chans : list (string * V)) k v :
  (chan_set chans k v).*1 = chans.*1.
Proof.
  induction chans as [|[k' v'] chans IH]; [done|]. cbn [chan_set].
  destruct (decide (k' = k)); [done|]. cbn [fmap list_fmap fst]. f_equal.
  apply IH.
Qed.

(** Methods made of [bind], [get], [modify] and the like: each [modify] is
    left to [leaf]. *)
Ltac frame_step leaf :=
  first
    [ apply preserves_ret | apply preserves_raise | apply preserves_item
    | apply preserves_orraise | apply preserves_get
    | match goal with
      | |- preserves _ (modify _) => apply preserves_modify; intros ?; leaf
      end
    | apply preserves_when | apply preserves_for_each; intros ?
    | apply preserves_bind; [|intros ?]
    | match goal with
      | |- preserves _ (origin_first ?who) => destruct who as [| []]
      | |- preserves _ (if ?b then _ else _) => destruct b
      | |- preserves _ (match ?x with _ => _ end) => destruct x
      | |- preserves _ (let _ := _ in _) => cbv zeta
      end ].

Ltac frame leaf := repeat frame_step leaf.

Ltac unfold_branches :=
  unfold on_join, on_part, on_notice, on_mode, on_kick, on_invite, on_nick,
    on_topic, on_quit, on_lusers, luser_field, set_luser, rename_in,
    get_users, users_getitem, users_delitem, users_setitem, put_users,
    get_entry, put_entry, notice, join, parse_cmode_string, quit, _parse,
    exception, call.

Section ClassifierFrame.

Context {B : Type} (f : IRC → B).

(** An attribute that the writes of the classifier do not reach. *)
Hypothesis f_index : ∀ i st, f (set_index i st) = f st.
Hypothesis f_calls : ∀ c st, f (set_calls c st) = f st.
Hypothesis f_nick : ∀ n st, f (set_current_nick n st) = f st.
Hypothesis f_lusers : ∀ l st, f (set_lusers l st) = f st.
Hypothesis f_entry : ∀ k e st,
  f (set_channels (chan_set (channels st) k e) st) = f st.

Variable rt : Runtime.

Lemma preserves_ctcp_reply table segments who :
  preserves f (ctcp_reply rt table segments who).
Proof.
  induction table as [|[ctcp v] rest IH]; [done|].
  cbn [ctcp_reply]. apply preserves_bind; [apply preserves_item|]. intros seg0.
  destruct (_ && _); [|done]. unfold notice, call.
  frame ltac:(by rewrite ?f_index, ?f_calls).
Qed.

End ClassifierFrame.

(** ** The branches of the classifier *)

(** The branch is chosen by the second word. *)
Ltac dispatch Hcmd :=
  unfold classify; cbv zeta; unfold item at 1; rewrite Hcmd; cbn [orraise]; rewrite bind_ret;
  repeat (rewrite bool_decide_eq_false_2 by discriminate);
  rewrite ?bool_decide_eq_true_2 by done.

Lemma get_entry_some channel entry st :
  chan_get (channels st) channel = Some entry →
  get_entry channel st = (st, Return entry).
Proof. intros H. unfold get_entry. by rewrite bind_get, H. Qed.

Lemma get_entry_none channel st :
  chan_get (channels st) channel = None →
  get_entry channel st = (st, Raise KeyError).
Proof. intros H. unfold get_entry. by rewrite bind_get, H. Qed.

Lemma get_users_some channel entry d st :
  chan_get (channels st) channel = Some entry →
  entry !! "USERS" = Some d →
  get_users channel st = (st, Return d).
Proof.
  intros Hc Hu. unfold get_users.
  by rewrite (bind_return _ _ _ _ _ (get_entry_some _ _ _ Hc)), Hu.
Qed.

Lemma put_users_some channel entry users st :
  chan_get (channels st) channel = Some entry →
  put_users channel users st
  = (set_channels
       (chan_set (channels st) channel (<["USERS" := VUsers users]> entry)) st,
     Return tt).
Proof.
  intros Hc. unfold put_users.
  by rewrite (bind_return _ _ _ _ _ (get_entry_some _ _ _ Hc)).
Qed.

(** X16: a JOIN for a channel of the store binds the nick of the origin to
    a fresh attribute list in the user map of that channel, over what the
    nick may have had before, and returns the JOIN event. *)
Theorem join_adds_member (rt : Runtime) (data : string) (st : IRC)
    (s0 s2 nick ident host : string) (entry : gmap string chan_value)
    (users : gmap string (list string)) :
  let segments := Str.words (isspace rt) data in
  let channel := Str.drop 1 s2 in
  py_index segments 0 = Some s0 →
  py_index segments 1 = Some "JOIN" →
  py_index segments 2 = Some s2 →
  _from_ (Str.drop 1 s0) = Hostmask nick ident host →
  chan_get (channels st) channel = Some entry →
  entry !! "USERS" = Some (VUsers users) →
  classify rt data st
  = (set_channels
       (chan_set (channels st) channel
          (<["USERS" := VUsers (<[nick := blank_attributes]> users)]> entry))
       st,
     Return (EvJoin (Hostmask nick ident host) channel)).
Proof.
  cbv zeta. intros H0 H1 H2 Hwho Hchan Husers.
  dispatch H1. unfold on_join.
  rewrite (item_some _ 0 s0), bind_ret by done.
  rewrite (item_some _ 2 s2), bind_ret, bind_get by done.
  rewrite Hchan, Hwho.
  rewrite (bind_return _ _ _ _ _ (get_users_some _ _ _ _ Hchan Husers)).
  cbn [origin_first users_setitem]. rewrite bind_ret.
  by rewrite (bind_return _ _ _ _ _ (put_users_some _ _ _ _ Hchan)).
Qed.

Lemma join_adds_member_witness :
  classify cpython3 ":alice!a@h JOIN :#chan" Eg.in_chan
  = (set_channels
       [("#chan", Ex.members [("alice", blank_attributes); ("bob", Ex.op)])]
       Eg.in_chan,
     Return (EvJoin (Hostmask "alice" "a" "h") "#chan")).
Proof.
  replace (set_channels
             [("#chan", Ex.members [("alice", blank_attributes); ("bob", Ex.op)])]
             Eg.in_chan)
    with (set_channels
            (chan_set (channels Eg.in_chan) (Str.drop 1 ":#chan")
               (<["USERS" := VUsers (<["alice" := blank_attributes]>
                                       (list_to_map [("bob", Ex.op)]))]>
                  (Ex.members [("bob", Ex.op)])))
            Eg.in_chan) by by vm_compute.
  apply (join_adds_member cpython3 ":alice!a@h JOIN :#chan" Eg.in_chan
           ":alice!a@h" ":#chan" "alice" "a" "h"); by vm_compute.
Defined.

Lemma chan_get_set_eq {V} (chans : list (string * V)) k v v' :
  chan_get chans k = Some v → chan_get (chan_set chans k v') k = Some v'.
Proof.
  induction chans as [|[k' w] chans IH]; [done|]. cbn [chan_get chan_set].
  destruct (decide (k' = k)) as [->|Hne]; intros H.
  - cbn [chan_get]. by rewrite decide_True.
  - cbn [chan_get]. rewrite decide_False by done. by apply IH.
Qed.

Lemma chan_get_set_ne {V} (chans : list (string * V)) k c v' :
  c ≠ k → chan_get (chan_set chans k v') c = chan_get chans c.
Proof.
  intros Hne. induction chans as [|[k' w] chans IH]; [done|].
  cbn [chan_get chan_set]. destruct (decide (k' = k)) as [->|Hk].
  - cbn [chan_get]. by rewrite !decide_False by done.
  - cbn [chan_get]. by rewrite IH.
Qed.

(** X18: a PART for a channel of the store deletes the nick of the origin
    from the user map of that channel and returns the PART event; when the
    nick is not in the map the line raises KeyError and the store is left as
    it was.  The channel is the third word as it stands. *)
Theorem part_removes_member (rt : Runtime) (data : string) (st : IRC)
    (s0 channel nick ident host : string) (entry : gmap string chan_value)
    (users : gmap string (list string)) :
  let segments := Str.words (isspace rt) data in
  py_index segments 0 = Some s0 →
  py_index segments 1 = Some "PART" →
  py_index segments 2 = Some channel →
  _from_ (Str.replace1 ":" "" s0) = Hostmask nick ident host →
  chan_get (channels st) channel = Some entry →
  entry !! "USERS" = Some (VUsers users) →
  classify rt data st
  = match users !! nick with
    | Some _ =>
        (set_channels
           (chan_set (channels st) channel
              (<["USERS" := VUsers (delete nick users)]> entry))
           st,
         Return (EvPart (Hostmask nick ident host) channel
                   (trailing 3 segments)))
    | None => (st, Raise KeyError)
    end.
Proof.
  cbv zeta. intros H0 H1 H2 Hwho Hchan Husers.
  dispatch H1. unfold on_part.
  rewrite (item_some _ 0 s0), bind_ret by done.
  rewrite (item_some _ 2 channel), bind_ret by done.
  rewrite Hwho.
  rewrite (bind_return _ _ _ _ _ (get_users_some _ _ _ _ Hchan Husers)).
  cbn [origin_first users_delitem]. rewrite bind_ret.
  destruct (users !! nick); [|done].
  by rewrite (bind_return _ _ _ _ _ (put_users_some _ _ _ _ Hchan)).
Qed.

Lemma part_removes_member_witness :
  classify cpython3 ":bob!b@h PART #chan :bye now" Eg.in_chan
  = (set_channels [("#chan", Ex.members [])] Eg.in_chan,
     Return (EvPart (Hostmask "bob" "b" "h") "#chan" "bye now")).
Proof.
  pose proof (part_removes_member cpython3 ":bob!b@h PART #chan :bye now"
                Eg.in_chan ":bob!b@h" "#chan" "bob" "b" "h"
                (Ex.members [("bob", Ex.op)]) (list_to_map [("bob", Ex.op)])
                eq_refl eq_refl eq_refl eq_refl eq_refl eq_refl) as H.
  rewrite H. by vm_compute.
Defined.

(** X19: a TOPIC line for a channel of the store returns the TOPIC event
    and records the topic under that channel: a lookup of the channel then
    gives its entry with TOPIC set, and every other channel is as before.
    The topic is the rest of the line from the fourth word, its words joined
    by one blank, without its first colon. *)
Theorem topic_is_recorded (rt : Runtime) (data : string) (st : IRC)
    (s0 channel : string) (entry : gmap string chan_value) :
  let segments := Str.words (isspace rt) data in
  let topic := Str.replace1 ":" "" (Str.join " " (drop 3 segments)) in
  py_index segments 0 = Some s0 →
  py_index segments 1 = Some "TOPIC" →
  py_index segments 2 = Some channel →
  chan_get (channels st) channel = Some entry →
  ∃ st',
    classify rt data st
    = (st', Return (EvTopic (_from_ (Str.replace1 ":" "" s0)) channel topic))
    ∧ chan_get (channels st') channel
      = Some (<["TOPIC" := VStr topic]> entry)
    ∧ (∀ c, c ≠ channel →
         chan_get (channels st') c = chan_get (channels st) c)
    ∧ set_channels (channels st) st' = st.
Proof.
  cbv zeta. intros H0 H1 H2 Hchan. eexists. split; [|split; [|split]].
  - dispatch H1. unfold on_topic.
    rewrite (item_some _ 0 s0), bind_ret by done.
    rewrite (item_some _ 2 channel), bind_ret by done.
    rewrite (bind_return _ _ _ _ _ (get_entry_some _ _ _ Hchan)).
    unfold put_entry. rewrite bind_modify. reflexivity.
  - simpl. by eapply chan_get_set_eq.
  - intros c Hc. simpl. by apply chan_get_set_ne.
  - by destruct st.
Qed.

Lemma topic_is_recorded_witness :
  ∃ st',
    classify cpython3 ":bob!b@h TOPIC #chan :tea  at  five" Eg.in_chan
    = (st', Return (EvTopic (Hostmask "bob" "b" "h") "#chan" "tea at five"))
    ∧ chan_get (channels st') "#chan"
      = Some (<["TOPIC" := VStr "tea at five"]> (Ex.members [("bob", Ex.op)]))
    ∧ (∀ c, c ≠ "#chan" →
         chan_get (channels st') c = chan_get (channels Eg.in_chan) c)
    ∧ set_channels (channels Eg.in_chan) st' = Eg.in_chan.
Proof.
  apply (topic_is_recorded cpython3 ":bob!b@h TOPIC #chan :tea  at  five"
           Eg.in_chan ":bob!b@h" "#chan" (Ex.members [("bob", Ex.op)]));
    by vm_compute.
Defined.

(** X20: a line for a channel that the store does not hold raises KeyError
    on PART and on TOPIC and changes nothing. *)
Theorem unknown_channel_raises (rt : Runtime) (data : string) (st : IRC)
    (s0 cmd channel : string) :
  let segments := Str.words (isspace rt) data in
  py_index segments 0 = Some s0 →
  py_index segments 1 = Some cmd →
  cmd = "PART" ∨ cmd = "TOPIC" →
  py_index segments 2 = Some channel →
  chan_get (channels st) channel = None →
  classify rt data st = (st, Raise KeyError).
Proof.
  cbv zeta. intros H0 H1 Hcmd H2 Hchan. destruct Hcmd as [-> | ->].
  - dispatch H1. unfold on_part.
    rewrite (item_some _ 0 s0), bind_ret by done.
    rewrite (item_some _ 2 channel), bind_ret by done.
    unfold get_users.
    by rewrite bind_assoc, (bind_raise _ _ _ _ _ (get_entry_none _ _ Hchan)).
  - dispatch H1. unfold on_topic.
    rewrite (item_some _ 0 s0), bind_ret by done.
    rewrite (item_some _ 2 channel), bind_ret by done.
    by rewrite (bind_raise _ _ _ _ _ (get_entry_none _ _ Hchan)).
Qed.

Lemma unknown_channel_raises_witness :
  classify cpython3 ":bob!b@h TOPIC #other :hello" Eg.in_chan
  = (Eg.in_chan, Raise KeyError).
Proof.
  apply (unknown_channel_raises cpython3 ":bob!b@h TOPIC #other :hello"
           Eg.in_chan ":bob!b@h" "TOPIC" "#other");
    first [by vm_compute | by right].
Defined.

(** X21: a statistics reply is not applied as a whole.  A 251 line that
    has its sixth word and no ninth word stores the user count and then
    raises IndexError: the count stays in [lusers]. *)
Theorem short_251_keeps_first_field (rt : Runtime) (data : string) (st : IRC)
    (n : string) :
  let segments := Str.words (isspace rt) data in
  py_index segments 1 = Some "251" →
  py_index segments 5 = Some n →
  py_index segments 8 = None →
  classify rt data st
  = (set_lusers (<["USERS" := n]> (lusers st)) st, Raise IndexError).
Proof.
  cbv zeta. intros H1 H5 H8. dispatch H1.
  unfold on_lusers, luser_field, set_luser.
  rewrite !bind_assoc, (item_some _ 5 n), bind_ret, bind_modify by done.
  unfold item. by rewrite H8.
Qed.

Lemma short_251_keeps_first_field_witness :
  classify cpython3 ":srv 251 me :There are 7 users" Ex.idle
  = (set_lusers (<["USERS" := "7"]> (lusers Ex.idle)) Ex.idle,
     Raise IndexError).
Proof.
  apply (short_251_keeps_first_field cpython3
           ":srv 251 me :There are 7 users" Ex.idle "7"); by vm_compute.
Defined.

(** X22: a buffered line of fewer than two words, such as a line of
    blanks, is consumed and makes [stream] raise IndexError. *)
Theorem short_line_raises (rt : Runtime) (fuel : nat) (sel : bool)
    (st : IRC) (data : string) :
  0 <= index st < 199 →
  buffer st !! Z.to_nat (index st) = Some data →
  find data "PING :" = false →
  (length (Str.words (isspace rt) data) < 2)%nat →
  stream rt fuel true sel st = (set_index (index st + 1) st, Raise IndexError).
Proof.
  intros Hidx Hline Hclean Hshort. unfold stream.
  rewrite bind_ret,
    (bind_return _ _ _ _ _ (_recv_ready rt fuel st _ Hidx Hline Hclean)).
  erewrite bind_raise; [done|].
  unfold classify. cbv zeta. unfold item at 1.
  assert (py_index (Str.words (isspace rt) data) 1 = None) as ->; [|done].
  unfold py_index. simpl. apply lookup_ge_None_2. simpl. lia.
Qed.

Lemma short_line_raises_witness :
  stream cpython3 1 true true (set_buffer ["   "] Ex.idle)
  = (set_index 1 (set_buffer ["   "] Ex.idle), Raise IndexError).
Proof.
  apply (short_line_raises cpython3 1 true (set_buffer ["   "] Ex.idle) "   ");
    [by vm_compute | by vm_compute | by vm_compute |].
  vm_compute. lia.
Defined.

(** ** Which lines reach which part of the state *)

Ltac as_preserves f :=
  match goal with
  | |- f (?m ?st).1 = f ?st => revert st; change (preserves f m)
  end.

(** X14: the classifier itself never adds, removes or reorders a channel.
    Whatever a line other than JOIN and MODE does, PART and KICK of the
    client itself among them, the store lists the same channel names
    afterwards.  JOIN and MODE lines hand over to [join] and
    [parse_cmode_string] of the channel module and are left out. *)
Theorem classify_keeps_channel_names (rt : Runtime) (data : string)
    (st : IRC) :
  let segments := Str.words (isspace rt) data in
  (∀ cmd, py_index segments 1 = Some cmd → cmd ∉ ["JOIN"; "MODE"]) →
  channel_names (classify rt data st).1 = channel_names st.
Proof.
  cbv zeta. intros Hcmd. unfold classify. cbv zeta. unfold item at 1.
  destruct (py_index (Str.words (isspace rt) data) 1) as [command|]; [|done].
  cbn [orraise]. rewrite bind_ret. specialize (Hcmd command eq_refl).
  repeat (case_bool_decide;
          [ first
              [ exfalso; subst command; apply Hcmd; solve [in_list]
              | as_preserves (channel_names); unfold on_privmsg;
                unfold_branches;
                repeat first
                  [ apply preserves_ctcp_reply; done
                  | frame_step
                      ltac:(unfold channel_names; simpl;
                            by rewrite ?chan_set_keys) ] ]
          | ]).
  as_preserves (channel_names). unfold_branches.
  frame ltac:(unfold channel_names; simpl; by rewrite ?chan_set_keys).
Qed.

Lemma classify_keeps_channel_names_witness :
  channel_names (classify cpython3 ":bob!b@h PART #chan :bye now" Eg.in_chan).1
  = ["#chan"].
Proof.
  apply (classify_keeps_channel_names cpython3 ":bob!b@h PART #chan :bye now"
           Eg.in_chan).
  intros cmd [= <-]. apply (bool_decide_unpack _). by vm_compute.
Defined.

(** X24: a line other than JOIN, PART, KICK, NICK, TOPIC and MODE leaves
    every channel and every user map as it was: who quits stays listed.
    ([notice], [quit] and [_parse], which such a line may call, are taken
    not to write to the channels.) *)
Theorem other_lines_leave_channels_alone (rt : Runtime) (data : string)
    (st : IRC) :
  let segments := Str.words (isspace rt) data in
  (∀ cmd, py_index segments 1 = Some cmd →
     cmd ∉ ["JOIN"; "PART"; "KICK"; "NICK"; "TOPIC"; "MODE"]) →
  channels (classify rt data st).1 = channels st.
Proof.
  cbv zeta. intros Hcmd. unfold classify. cbv zeta. unfold item at 1.
  destruct (py_index (Str.words (isspace rt) data) 1) as [command|]; [|done].
  cbn [orraise]. rewrite bind_ret. specialize (Hcmd command eq_refl).
  repeat (case_bool_decide;
          [ first
              [ exfalso; subst command; apply Hcmd; solve [in_list]
              | as_preserves channels; unfold on_privmsg; unfold_branches;
                repeat first
                  [ apply preserves_ctcp_reply; done
                  | frame_step ltac:(done) ] ]
          | ]).
  as_preserves channels. unfold_branches. frame ltac:(done).
Qed.

Lemma other_lines_leave_channels_alone_witness :
  channels (classify cpython3 ":bob!b@h QUIT :gone" Eg.in_chan).1
  = channels Eg.in_chan.
Proof.
  apply (other_lines_leave_channels_alone cpython3 ":bob!b@h QUIT :gone"
           Eg.in_chan).
  intros cmd [= <-]. apply (bool_decide_unpack _). by vm_compute.
Defined.

(** X25: only a NICK line can change the nick the client takes as its own,
    and only the statistics replies 250 to 266 can change [lusers]. *)
Theorem nick_and_lusers_change_on_their_lines (rt : Runtime) (data : string)
    (st : IRC) :
  let segments := Str.words (isspace rt) data in
  let st' := (classify rt data st).1 in
  (py_index segments 1 ≠ Some "NICK" → current_nick st' = current_nick st)
  ∧ ((∀ cmd, py_index segments 1 = Some cmd →
        cmd ∉ ["250"; "251"; "252"; "253"; "254"; "255"; "265"; "266"]) →
     lusers st' = lusers st).
Proof.
  cbv zeta. split; intros Hcmd.
  - unfold classify. cbv zeta. unfold item at 1.
    destruct (py_index (Str.words (isspace rt) data) 1) as [command|];
      [|done].
    cbn [orraise]. rewrite bind_ret.
    repeat (case_bool_decide;
            [ first
                [ exfalso; subst command; by apply Hcmd
                | as_preserves current_nick; unfold on_privmsg;
                  unfold_branches;
                  repeat first
                    [ apply preserves_ctcp_reply; done
                    | frame_step ltac:(done) ] ]
            | ]).
    as_preserves current_nick. unfold_branches. frame ltac:(done).
  - unfold classify. cbv zeta. unfold item at 1.
    destruct (py_index (Str.words (isspace rt) data) 1) as [command|];
      [|done].
    cbn [orraise]. rewrite bind_ret. specialize (Hcmd command eq_refl).
    repeat (case_bool_decide;
            [ first
                [ exfalso; subst command; apply Hcmd; solve [in_list]
                | as_preserves lusers; unfold on_privmsg; unfold_branches;
                  repeat first
                    [ apply preserves_ctcp_reply; done
                    | frame_step ltac:(done) ] ]
            | ]).
    as_preserves lusers. unfold_branches. frame ltac:(done).
Qed.

Lemma nick_and_lusers_change_on_their_lines_witness :
  current_nick (classify cpython3 ":bob!b@h QUIT :gone" Eg.in_chan).1
  = current_nick Eg.in_chan
  ∧ lusers (classify cpython3 ":bob!b@h QUIT :gone" Eg.in_chan).1
    = lusers Eg.in_chan.
Proof.
  destruct (nick_and_lusers_change_on_their_lines cpython3
              ":bob!b@h QUIT :gone" Eg.in_chan) as [Hnick Hlusers].
  split.
  - apply Hnick. by vm_compute.
  - apply Hlusers. intros cmd [= <-]. apply (bool_decide_unpack _).
    by vm_compute.
Defined.
